(** * gymnax: the rollout wrapper [BaseRollouts] (gymnax/rollouts/base_rollouts.py)

    A shallow embedding of the class [BaseRollouts] and of the few JAX
    operations its methods call.

    - Python exceptions are an error effect.  The methods are written over a
      monad [m] with ExtLib's [Monad] and [MonadExc] interfaces and read at
      [sum exn]: a call evaluates to its result or to the exception it
      raises.
    - [lax.scan] first traces its body, once, on the initial carry: what the
      body raises there the scan raises, whatever the number of steps; a body
      that returns a carry of another type than the one it got is refused
      with a [TypeError]; the shape of the outputs is the one found there.
      Then comes the loop, [scan]: the body applied to the carry once per
      element of the scanned array, in order, the per-step outputs stacked
      along a new leading axis.
    - [vmap] with [in_axes=(0, None, ...)] and [out_axes=0] is the function
      applied to every row of its batched argument, the results stacked along
      axis 0; a stacked result is the list of its rows.
    - [jit] with [self] static keeps, per static argument and types of the
      other arguments, the function as it was traced the first time, with
      what the trace read of the instance.  [lax_rollout], [vmap_rollout],
      [episode_rollout] and [batch_rollout] are the methods under the
      decorator, traced anew; the module [Jitted] has them as decorated, with
      the cache passed from call to call.
    - An array is a shape with its elements in row-major order; [squeeze],
      [jnp.array] of a list and [len] act on the shape as they do in JAX.
    - A hook is what it returns or raises for its arguments.  The buffer that
      [store_experience] writes belongs to the subclass; the wrapper drops
      what the hook returns, and so does the model. *)

From Stdlib Require Import String List Arith Bool Lia.
From ExtLib Require Import Structures.Monad Structures.MonadExc.
From ExtLib Require Import Data.Monads.EitherMonad.
Import ListNotations.
Import MonadNotation.
Local Open Scope monad_scope.

Set Implicit Arguments.

(** ** Python exceptions *)

Module Py.

(** The exceptions a rollout can meet.  [except AttributeError] catches
    [AttributeError] and its subclasses ([AttributeErrorSubclass cls msg],
    such as [dataclasses.FrozenInstanceError]) and no other class; the base
    hooks raise [NotImplementedError]; [lax.scan] raises [TypeError] (its
    message is left out); [OtherError cls msg] is an exception of any class
    that is none of these and no subclass of [AttributeError]. *)
Inductive exn : Type :=
| AttributeError (msg : string)
| AttributeErrorSubclass (cls msg : string)
| NotImplementedError
| KeyError (key : string)
| TypeError
| OtherError (cls msg : string).

(** The message of the [AttributeError] that the lookup [obj.name] raises
    when an object of class [cls] has no attribute [name]. *)
Definition no_attribute (cls name : string) : string :=
  ("'" ++ cls ++ "' object has no attribute '" ++ name ++ "'")%string.

End Py.
Import Py.

(** ** The JAX operations of the rollout *)

Module Jnp.

(** An array: its shape and its elements, row-major. *)
Record ndarray (A : Type) : Type := mk_ndarray
  { shape : list nat;
    data : list A }.

Arguments mk_ndarray {A} shape data.

(** A 0-dimensional array. *)
Definition scalar {A} (a : A) : ndarray A := mk_ndarray [] [a].

(** [jnp.zeros(n)]: [n] zeros.  Scanned along axis 0 it gives [n] slices. *)
Definition zeros (n : nat) : list nat := repeat 0 n.

(** Stacking arrays of shape [sh] along a new leading axis. *)
Definition stack {A} (sh : list nat) (xs : list (ndarray A)) : ndarray A :=
  mk_ndarray (length xs :: sh) (flat_map (@data A) xs).

(** [jnp.array(xs)] of a list of arrays: the arrays stacked; their shape is
    the shape of the first one. *)
Definition array {A} (xs : list (ndarray A)) : ndarray A :=
  match xs with
  | [] => mk_ndarray [0] []
  | x :: _ => stack (shape x) xs
  end.

(** The axes that [squeeze] keeps: those that are not of length one. *)
Definition squeezed (sh : list nat) : list nat :=
  filter (fun d => negb (d =? 1)) sh.

(** [a.squeeze()]: every axis of length one is removed. *)
Definition squeeze {A} (a : ndarray A) : ndarray A :=
  mk_ndarray (filter (fun d => negb (d =? 1)) (shape a)) (data a).

(** [len(a)]: the length of the leading axis; a 0-dimensional array has
    none ([TypeError: len() of unsized object]). *)
Definition len {A} (a : ndarray A) : option nat :=
  match shape a with
  | [] => None
  | n :: _ => Some n
  end.

(** The type of a value as tracing sees it: the shapes of its leaves. *)
Definition aval : Type := list (list nat).

Definition aval_eq_dec : forall a b : aval, {a = b} + {a <> b} :=
  list_eq_dec (list_eq_dec Nat.eq_dec).

Definition avals_eq_dec : forall a b : list aval, {a = b} + {a <> b} :=
  list_eq_dec aval_eq_dec.

(** Leaf [j] of each of the per-step outputs of a scan. *)
Definition leaf {A} (j : nat) (ys : list (list (ndarray A)))
    : list (ndarray A) :=
  flat_map (fun y => match nth_error y j with
                     | Some a => [a]
                     | None => []
                     end) ys.

(** The outputs of a scan: leaf by leaf, the per-step outputs [ys] stacked
    along a new leading axis; the shape of a leaf is the one it has in the
    output [y_out] of the traced body. *)
Definition stack_outputs {A} (y_out : list (ndarray A))
    (ys : list (list (ndarray A))) : list (ndarray A) :=
  map (fun jr => stack (shape (snd jr)) (leaf (fst jr) ys))
    (combine (seq 0 (length y_out)) y_out).

End Jnp.
Import Jnp.

(** ** The class *)

(** What the wrapper takes from JAX and from the values it is given. *)
Class Jax (Key Obs State EnvParams AgentParams ActorState LearnerState : Type)
    : Type :=
  { (** [jax.random.split(rng, 3)], unpacked into its three keys, which have
        the type of [rng] *)
    split3 : Key -> Key * Key * Key;
    (** the [squeeze] method of an observation and of an environment state *)
    obs_squeeze : Obs -> Obs;
    state_squeeze : State -> State;
    (** [env_params[name]]; [None] where the key is missing *)
    getitem : EnvParams -> string -> option nat;
    (** the shape of an observation and of a state, and what [squeeze] makes
        of it *)
    obs_shape : Obs -> list nat;
    state_shape : State -> list nat;
    obs_squeeze_shape :
      forall obs, obs_shape (obs_squeeze obs) = squeezed (obs_shape obs);
    state_squeeze_shape :
      forall state,
        state_shape (state_squeeze state) = squeezed (state_shape state);
    (** the types of the other values that are traced *)
    env_params_type : EnvParams -> aval;
    agent_params_type : AgentParams -> aval;
    actor_state_type : ActorState -> aval;
    learner_state_type : LearnerState -> aval }.

Section Rollouts.

(** The values that travel through a rollout.  The wrapper never looks into
    them, except that it calls [squeeze] on the observation and on the state
    that the environment returns. *)
Context {Key Obs State EnvParams AgentParams ActorState LearnerState : Type}.
Context {Action Info Experience R : Type}.
Context {jax : Jax Key Obs State EnvParams AgentParams ActorState
                 LearnerState}.

(** The key kept for the next step, the action key and the step key. *)
Definition next_key (k : Key) : Key := fst (fst (split3 k)).
Definition act_key (k : Key) : Key := snd (fst (split3 k)).
Definition step_key (k : Key) : Key := snd (split3 k).

(** The effect of the methods: exceptions. *)
Context {m : Type -> Type} {Monad_m : Monad m} {MonadExc_m : MonadExc exn m}.

(** What [step] returns: [(obs, state, reward, done, info)]. *)
Definition StepOut : Type := Obs * State * ndarray R * bool * Info.

(** [env_output = (state, next_state, obs, next_obs, action, reward, done)]. *)
Definition EnvOutput : Type :=
  State * State * Obs * Obs * Action * ndarray R * bool.

(** The methods a subclass overrides, and the name of the class. *)
Record Subclass : Type := mkSubclass
  { class_name : string;
    action_selection :
      Key -> Obs -> AgentParams -> ActorState -> m (Action * ActorState);
    prepare_experience : EnvOutput -> ActorState -> m Experience;
    store_experience : Experience -> m unit;
    update_learner :
      AgentParams -> LearnerState -> m (AgentParams * LearnerState);
    init_learner_state : AgentParams -> m LearnerState;
    init_actor_state : unit -> m ActorState }.

(** The class as the file defines it: every hook raises
    [NotImplementedError]. *)
Definition BaseRollouts : Subclass :=
  {| class_name := "BaseRollouts";
     action_selection := fun _ _ _ _ => raise NotImplementedError;
     prepare_experience := fun _ _ => raise NotImplementedError;
     store_experience := fun _ => raise NotImplementedError;
     update_learner := fun _ _ => raise NotImplementedError;
     init_learner_state := fun _ => raise NotImplementedError;
     init_actor_state := fun _ => raise NotImplementedError |}.

(** The attributes of an instance.  [__init__] sets the first four;
    [init_collector] sets the last three, which are missing before. *)
Record Self : Type := mkSelf
  { self_step : Key -> EnvParams -> State -> Action -> m StepOut;
    self_reset : Key -> EnvParams -> m (Obs * State);
    self_env_params : EnvParams;
    self_max_steps_in_episode : nat;
    self_agent_params : option AgentParams;
    self_learner_state : option LearnerState;
    self_actor_state : option ActorState }.

(** The carry of the scan:
    [[rng, obs, state, env_params, agent_params, actor_state, learner_state]]. *)
Record Carry : Type := mkCarry
  { carry_rng : Key;
    carry_obs : Obs;
    carry_state : State;
    carry_env_params : EnvParams;
    carry_agent_params : AgentParams;
    carry_actor_state : ActorState;
    carry_learner_state : LearnerState }.

(** The type of a carry: the types of its fields.  The key and the
    environment parameters are left out: a step passes on a key that
    [split3] returns and the environment parameters it got. *)
Definition carry_type (carry : Carry) : list aval :=
  [[obs_shape (carry_obs carry)];
   [state_shape (carry_state carry)];
   agent_params_type (carry_agent_params carry);
   actor_state_type (carry_actor_state carry);
   learner_state_type (carry_learner_state carry)].

(** The loop of [lax.scan(f, init, xs)]: the final carry and the per-step
    outputs, first step first. *)
Fixpoint scan {C X Y : Type} (f : C -> X -> m (C * Y)) (init : C)
    (xs : list X) : m (C * list Y) :=
  match xs with
  | [] => ret (init, [])
  | x :: xs' =>
      ' (carry, y) <- f init x ;;
      ' (carry', ys) <- scan f carry xs' ;;
      ret (carry', y :: ys)
  end.

(** [lax.scan(f, init, xs)] where a slice of [xs] is a number and the
    per-step output is a list of arrays.  The body is traced on the initial
    carry and a slice, for any length of [xs]; the carry it returns must
    have the type of the initial carry; then the loop runs and its outputs
    are stacked. *)
Definition lax_scan {C : Type} (type_of : C -> list aval)
    (f : C -> nat -> m (C * list (ndarray R)))
    (init : C) (xs : list nat) : m (C * list (ndarray R)) :=
  ' (carry_out, y_out) <- f init 0 ;;
  if avals_eq_dec (type_of init) (type_of carry_out)
  then
    ' (carry, ys) <- scan f init xs ;;
    ret (carry, stack_outputs y_out ys)
  else raise TypeError.

(** [vmap(f, in_axes=(0, None, ...), out_axes=0)] of a function with two
    results: [f] on every row, the results stacked. *)
Fixpoint vmap {A B C : Type} (f : A -> m (B * C)) (rows : list A)
    : m (list B * list C) :=
  match rows with
  | [] => ret ([], [])
  | row :: rows' =>
      ' (b, c) <- f row ;;
      ' (bs, cs) <- vmap f rows' ;;
      ret (b :: bs, c :: cs)
  end.

(** [self.name] for the three attributes that [init_collector] sets. *)
Definition getattr {A : Type} (cls : Subclass) (name : string)
    (field : option A) : m A :=
  match field with
  | Some v => ret v
  | None => raise (AttributeError (no_attribute (class_name cls) name))
  end.

Variable cls : Subclass.

(** [__init__(self, step, reset, env_params)]. *)
Definition __init__ (step : Key -> EnvParams -> State -> Action -> m StepOut)
    (reset : Key -> EnvParams -> m (Obs * State)) (env_params : EnvParams)
    : m Self :=
  match getitem env_params "max_steps_in_episode" with
  | Some n => ret (mkSelf step reset env_params n None None None)
  | None => raise (KeyError "max_steps_in_episode")
  end.

(** [init_collector(self, agent_params)]; the result is the instance after
    a call that returns.  (A call that raises in one of the two initialisers
    leaves the attributes set before it on the instance.) *)
Definition init_collector (self : Self) (agent_params : AgentParams)
    : m Self :=
  learner_state <- init_learner_state cls agent_params ;;
  actor_state <- init_actor_state cls tt ;;
  ret (mkSelf (self_step self) (self_reset self) (self_env_params self)
         (self_max_steps_in_episode self)
         (Some agent_params) (Some learner_state) (Some actor_state)).

Definition perform_transition (self : Self) (key : Key)
    (env_params : EnvParams) (state : State) (action : Action)
    : m StepOut :=
  ' (next_obs, next_state, reward, done, info) <-
      self_step self key env_params state action ;;
  ret (next_obs, next_state, reward, done, info).

Definition actor_learner_step (self : Self) (carry_input : Carry)
    (tmp : nat) : m (Carry * list (ndarray R)) :=
  (* 0. unpack the carry, split the key *)
  let rng := carry_rng carry_input in
  let obs := carry_obs carry_input in
  let state := carry_state carry_input in
  let env_params := carry_env_params carry_input in
  let agent_params := carry_agent_params carry_input in
  let actor_state := carry_actor_state carry_input in
  let learner_state := carry_learner_state carry_input in
  let '(rng, key_act, key_step) := split3 rng in
  (* 1. action selection *)
  ' (action, actor_state) <-
      action_selection cls key_act obs agent_params actor_state ;;
  (* 2. transition in the environment *)
  ' (next_obs, next_state, reward, done, _) <-
      perform_transition self key_step env_params state action ;;
  let env_output :=
    (state, next_state, obs, next_obs, action, reward, done) in
  (* 3. prepare the experience *)
  step_experience <- prepare_experience cls env_output actor_state ;;
  (* 4. store it *)
  store_experience cls step_experience ;;
  (* 5. update the learner *)
  ' (agent_params, learner_state) <-
      update_learner cls agent_params learner_state ;;
  (* 6. the next carry and the output of the step *)
  ret (mkCarry rng (obs_squeeze next_obs) (state_squeeze next_state)
         env_params agent_params actor_state learner_state,
       [reward]).

(** [lax_rollout] under its decorator. *)
Definition lax_rollout (self : Self) (key_input : Key)
    (env_params : EnvParams) (max_steps_in_episode : nat)
    (agent_params : AgentParams) (actor_state : ActorState)
    (learner_state : LearnerState) : m (Carry * ndarray R) :=
  ' (obs, state) <- self_reset self key_input env_params ;;
  ' (scan_out1, scan_out2) <-
      lax_scan carry_type (actor_learner_step self)
        (mkCarry key_input obs state env_params
           agent_params actor_state learner_state)
        (zeros max_steps_in_episode) ;;
  ret (scan_out1, squeeze (array scan_out2)).

(** [vmap_rollout] under its decorator: the five attributes are read while
    the function is traced. *)
Definition vmap_rollout (self : Self) (key_input : list Key)
    (env_params : EnvParams) (max_steps_in_episode : nat)
    (agent_params : AgentParams) (actor_state : ActorState)
    (learner_state : LearnerState) : m (list Carry * list (ndarray R)) :=
  let rollout_map :=
    fun keys env_params max_steps_in_episode agent_params actor_state
        learner_state =>
      vmap (fun key => lax_rollout self key env_params max_steps_in_episode
                         agent_params actor_state learner_state) keys in
  agent_params' <- getattr cls "agent_params" (self_agent_params self) ;;
  actor_state' <- getattr cls "actor_state" (self_actor_state self) ;;
  learner_state' <- getattr cls "learner_state" (self_learner_state self) ;;
  ' (traces, rewards) <-
      rollout_map key_input (self_env_params self)
        (self_max_steps_in_episode self)
        agent_params' actor_state' learner_state' ;;
  ret (traces, rewards).

(** The handler of [episode_rollout]: [except AttributeError as err]. *)
Definition episode_hint : string :=
  ". You need to initialize the agent's parameters and the states of the actor and learner.".

(** The handler of [batch_rollout]. *)
Definition batch_hint : string :=
  ". You need to initialize the agent params and actor/learner states.".

(** [except AttributeError as err: raise AttributeError(f"{err}" + hint)]:
    an [AttributeError] or an exception of one of its subclasses is caught,
    and a plain [AttributeError] is raised in its place; an exception of
    another class is not caught. *)
Definition except_AttributeError {A : Type} (hint : string) (err : exn)
    : m A :=
  match err with
  | AttributeError msg => raise (AttributeError (msg ++ hint))
  | AttributeErrorSubclass _ msg => raise (AttributeError (msg ++ hint))
  | _ => raise err
  end.

(** [episode_rollout], where the call of [self.lax_rollout] is traced
    anew. *)
Definition episode_rollout (self : Self) (key_rollout : Key)
    : m (Carry * ndarray R) :=
  catch
    (agent_params <- getattr cls "agent_params" (self_agent_params self) ;;
     actor_state <- getattr cls "actor_state" (self_actor_state self) ;;
     learner_state <-
       getattr cls "learner_state" (self_learner_state self) ;;
     lax_rollout self key_rollout (self_env_params self)
       (self_max_steps_in_episode self)
       agent_params actor_state learner_state)
    (except_AttributeError episode_hint).

(** [batch_rollout], where the call of [self.vmap_rollout] is traced
    anew. *)
Definition batch_rollout (self : Self) (key_rollout : list Key)
    : m (list Carry * list (ndarray R)) :=
  catch
    (agent_params <- getattr cls "agent_params" (self_agent_params self) ;;
     actor_state <- getattr cls "actor_state" (self_actor_state self) ;;
     learner_state <-
       getattr cls "learner_state" (self_learner_state self) ;;
     vmap_rollout self key_rollout (self_env_params self)
       (self_max_steps_in_episode self)
       agent_params actor_state learner_state)
    (except_AttributeError batch_hint).

End Rollouts.

(** ** The methods as functions: the monad [sum exn] *)

(** A call returns [inr v], or raises: [inl e]. *)
Definition result : Type -> Type := sum exn.

(** ** The decorated methods *)

Module Jitted.

Section Jit.

Context {Key Obs State EnvParams AgentParams ActorState LearnerState : Type}.
Context {Action Info Experience R : Type}.
Context {jax : Jax Key Obs State EnvParams AgentParams ActorState
                 LearnerState}.
Context {m : Type -> Type} {Monad_m : Monad m} {MonadExc_m : MonadExc exn m}.

(** What [jit] looks a traced function up with: the static arguments (the
    same instance is understood) and the types of the other arguments.  The
    number of keys of a batch is part of the type of the batch. *)
Definition CacheKey : Type := list nat * list aval.

Definition cache_key_eq_dec : forall k k' : CacheKey, {k = k'} + {k <> k'}.
Proof.
  intros [s t] [s' t'].
  destruct (list_eq_dec Nat.eq_dec s s') as [Hs | Hs].
  - destruct (avals_eq_dec t t') as [Ht | Ht].
    + left. rewrite Hs, Ht. reflexivity.
    + right. intros H. apply Ht. injection H as _ H. exact H.
  - right. intros H. apply Hs. injection H as H _. exact H.
Defined.

Definition Inst : Type :=
  @Self Key Obs State EnvParams AgentParams ActorState LearnerState Action
    Info R m.

(** The traced functions of the two decorated methods of one instance: with
    each, the instance as it was when the function was traced. *)
Record JitCache : Type := mkJitCache
  { lax_traces : list (CacheKey * Inst);
    vmap_traces : list (CacheKey * Inst) }.

Definition no_trace : JitCache := mkJitCache [] [].

Fixpoint find_trace (k : CacheKey) (traces : list (CacheKey * Inst))
    : option Inst :=
  match traces with
  | [] => None
  | (k', traced) :: rest =>
      if cache_key_eq_dec k k' then Some traced else find_trace k rest
  end.

Definition arguments_type (env_params : EnvParams)
    (agent_params : AgentParams) (actor_state : ActorState)
    (learner_state : LearnerState) : list aval :=
  [env_params_type env_params; agent_params_type agent_params;
   actor_state_type actor_state; learner_state_type learner_state].

Variable cls :
  @Subclass Key Obs State AgentParams ActorState LearnerState Action
    Experience R m.

(** [@partial(jit, static_argnums=(0, 3))] on [lax_rollout]: a call whose
    static argument and argument types were met before runs the function
    traced then, on the arguments of the call; another call traces the
    function on the instance as it is, and keeps it when the call returns. *)
Definition lax_rollout (self : Inst) (cache : JitCache) (key_input : Key)
    (env_params : EnvParams) (max_steps_in_episode : nat)
    (agent_params : AgentParams) (actor_state : ActorState)
    (learner_state : LearnerState) : m (Carry * ndarray R * JitCache) :=
  let k :=
    ([max_steps_in_episode],
     arguments_type env_params agent_params actor_state learner_state) in
  match find_trace k (lax_traces cache) with
  | Some traced =>
      out <- lax_rollout cls traced key_input env_params
               max_steps_in_episode agent_params actor_state learner_state ;;
      ret (out, cache)
  | None =>
      out <- lax_rollout cls self key_input env_params
               max_steps_in_episode agent_params actor_state learner_state ;;
      ret (out, mkJitCache ((k, self) :: lax_traces cache)
                  (vmap_traces cache))
  end.

(** [@partial(jit, static_argnums=(0, 3))] on [vmap_rollout]. *)
Definition vmap_rollout (self : Inst) (cache : JitCache)
    (key_input : list Key) (env_params : EnvParams)
    (max_steps_in_episode : nat) (agent_params : AgentParams)
    (actor_state : ActorState) (learner_state : LearnerState)
    : m (list Carry * list (ndarray R) * JitCache) :=
  let k :=
    ([length key_input; max_steps_in_episode],
     arguments_type env_params agent_params actor_state learner_state) in
  match find_trace k (vmap_traces cache) with
  | Some traced =>
      out <- vmap_rollout cls traced key_input env_params
               max_steps_in_episode agent_params actor_state learner_state ;;
      ret (out, cache)
  | None =>
      out <- vmap_rollout cls self key_input env_params
               max_steps_in_episode agent_params actor_state learner_state ;;
      ret (out, mkJitCache (lax_traces cache)
                  ((k, self) :: vmap_traces cache))
  end.

(** [episode_rollout] and [batch_rollout] as they call the decorated
    methods. *)
Definition episode_rollout (self : Inst) (cache : JitCache)
    (key_rollout : Key) : m (Carry * ndarray R * JitCache) :=
  catch
    (agent_params <- getattr cls "agent_params" (self_agent_params self) ;;
     actor_state <- getattr cls "actor_state" (self_actor_state self) ;;
     learner_state <-
       getattr cls "learner_state" (self_learner_state self) ;;
     lax_rollout self cache key_rollout (self_env_params self)
       (self_max_steps_in_episode self)
       agent_params actor_state learner_state)
    (except_AttributeError episode_hint).

Definition batch_rollout (self : Inst) (cache : JitCache)
    (key_rollout : list Key)
    : m (list Carry * list (ndarray R) * JitCache) :=
  catch
    (agent_params <- getattr cls "agent_params" (self_agent_params self) ;;
     actor_state <- getattr cls "actor_state" (self_actor_state self) ;;
     learner_state <-
       getattr cls "learner_state" (self_learner_state self) ;;
     vmap_rollout self cache key_rollout (self_env_params self)
       (self_max_steps_in_episode self)
       agent_params actor_state learner_state)
    (except_AttributeError batch_hint).

End Jit.

End Jitted.

(** ** The instance that [init_collector] leaves *)

Section Collector.

Context {Key Obs State EnvParams AgentParams ActorState LearnerState : Type}.
Context {Action Info Experience R : Type}.

(** [init_collector] assigns [self.agent_params], then [self.learner_state],
    then [self.actor_state]; an initialiser that raises ends the call, and
    the attributes assigned before it stay.  This is the instance after the
    call, whether it returned or raised. *)
Definition init_collector_instance
    (cls : @Subclass Key Obs State AgentParams ActorState LearnerState Action
             Experience R result)
    (self : @Self Key Obs State EnvParams AgentParams ActorState LearnerState
              Action Info R result)
    (agent_params : AgentParams)
    : @Self Key Obs State EnvParams AgentParams ActorState LearnerState
        Action Info R result :=
  let self1 :=
    mkSelf (self_step self) (self_reset self) (self_env_params self)
      (self_max_steps_in_episode self)
      (Some agent_params) (self_learner_state self) (self_actor_state self) in
  match init_learner_state cls agent_params with
  | inl _ => self1
  | inr learner_state =>
      let self2 :=
        mkSelf (self_step self) (self_reset self) (self_env_params self)
          (self_max_steps_in_episode self)
          (Some agent_params) (Some learner_state) (self_actor_state self) in
      match init_actor_state cls tt with
      | inl _ => self2
      | inr actor_state =>
          mkSelf (self_step self) (self_reset self) (self_env_params self)
            (self_max_steps_in_episode self)
            (Some agent_params) (Some learner_state) (Some actor_state)
      end
  end.

(** Two instances with the same environment: the same [step] and the same
    [reset], as have an instance before and after [init_collector]. *)
Definition same_environment
    (self1 self2 : @Self Key Obs State EnvParams AgentParams ActorState
                     LearnerState Action Info R result) : Prop :=
  (forall key env_params,
     self_reset self1 key env_params = self_reset self2 key env_params) /\
  (forall key env_params state action,
     self_step self1 key env_params state action
       = self_step self2 key env_params state action).

(** A cache whose traces of [lax_rollout] were made on the instance [self],
    whatever its collector was then. *)
Definition traced_on
    (self : @Self Key Obs State EnvParams AgentParams ActorState
              LearnerState Action Info R result)
    (cache : @Jitted.JitCache Key Obs State EnvParams AgentParams ActorState
               LearnerState Action Info R result) : Prop :=
  Forall (fun entry => same_environment (snd entry) self)
    (Jitted.lax_traces cache).

End Collector.

(** ** A small environment and some agents, to run the methods on *)

Module Demo.

(** [env_params] as the list of its items. *)
Definition EnvParams : Type := list (string * nat).

Fixpoint lookup (env_params : EnvParams) (name : string) : option nat :=
  match env_params with
  | [] => None
  | (k, v) :: rest => if String.eqb k name then Some v else lookup rest name
  end.

(** Keys are numbers, and the three keys split from [k] are [3k+1], [3k+2]
    and [3k+3]; observations, states, parameters and the states of the actor
    and of the learner are scalars. *)
#[export] Instance counters : Jax nat nat nat EnvParams nat nat nat :=
  { split3 := fun k => (3 * k + 1, 3 * k + 2, 3 * k + 3);
    obs_squeeze := fun o => o;
    state_squeeze := fun s => s;
    getitem := lookup;
    obs_shape := fun _ => [];
    state_shape := fun _ => [];
    obs_squeeze_shape := fun _ => eq_refl;
    state_squeeze_shape := fun _ => eq_refl;
    env_params_type := fun p => map (fun _ => []) p;
    agent_params_type := fun _ => [[]];
    actor_state_type := fun _ => [[]];
    learner_state_type := fun _ => [[]] }.

Definition SubclassD : Type :=
  @Subclass nat nat nat nat nat nat nat nat nat result.
Definition SelfD : Type :=
  @Self nat nat nat EnvParams nat nat nat nat unit nat result.
Definition CarryD : Type := @Carry nat nat nat EnvParams nat nat nat.
Definition JitCacheD : Type :=
  @Jitted.JitCache nat nat nat EnvParams nat nat nat nat unit nat result.

(** The environment: the state counts the steps, the reward is always 1 and
    the episode is never done. *)
Definition reset (key : nat) (env_params : EnvParams) : result (nat * nat) :=
  inr (0, 0).

Definition step (key : nat) (env_params : EnvParams) (state action : nat)
    : result (nat * nat * ndarray nat * bool * unit) :=
  inr (S (S state), S state, scalar 1, false, tt).

(** An agent that learns at every step. *)
Definition Learning : SubclassD :=
  {| class_name := "Learning";
     action_selection := fun key obs agent_params actor_state =>
       inr (obs + agent_params, S actor_state);
     prepare_experience := fun env_output actor_state => inr actor_state;
     store_experience := fun experience => inr tt;
     update_learner := fun agent_params learner_state =>
       inr (S agent_params, S learner_state);
     init_learner_state := fun agent_params => inr 0;
     init_actor_state := fun _ => inr 0 |}.

(** An agent whose learner returns what it is given. *)
Definition Frozen : SubclassD :=
  {| class_name := "Frozen";
     action_selection := action_selection Learning;
     prepare_experience := prepare_experience Learning;
     store_experience := store_experience Learning;
     update_learner := fun agent_params learner_state =>
       inr (agent_params, learner_state);
     init_learner_state := init_learner_state Learning;
     init_actor_state := init_actor_state Learning |}.

(** An agent whose action selection looks up an attribute of [None]. *)
Definition Broken : SubclassD :=
  {| class_name := "Broken";
     action_selection := fun key obs agent_params actor_state =>
       inl (AttributeError "'NoneType' object has no attribute 'apply'");
     prepare_experience := prepare_experience Learning;
     store_experience := store_experience Learning;
     update_learner := update_learner Learning;
     init_learner_state := init_learner_state Learning;
     init_actor_state := init_actor_state Learning |}.

(** An agent whose action selection assigns to a field of a frozen
    dataclass. *)
Definition Frozenclass : SubclassD :=
  {| class_name := "Frozenclass";
     action_selection := fun key obs agent_params actor_state =>
       inl (AttributeErrorSubclass "FrozenInstanceError"
              "cannot assign to field 'count'");
     prepare_experience := prepare_experience Learning;
     store_experience := store_experience Learning;
     update_learner := update_learner Learning;
     init_learner_state := init_learner_state Learning;
     init_actor_state := init_actor_state Learning |}.

(** The instance that [__init__] builds for episodes of [n] steps, the
    instance after [init_collector] with the agent parameters 7, and the
    instance after a second [init_collector], with the parameters 100. *)
Definition env_params (n : nat) : EnvParams :=
  [("max_steps_in_episode"%string, n)].

Definition created (n : nat) : SelfD :=
  mkSelf step reset (env_params n) n None None None.

Definition initialised (n : nat) : SelfD :=
  mkSelf step reset (env_params n) n (Some 7) (Some 0) (Some 0).

Definition reinitialised (n : nat) : SelfD :=
  mkSelf step reset (env_params n) n (Some 100) (Some 0) (Some 0).

(** The cache of the instance after a first [batch_rollout] on two keys,
    and after a first [episode_rollout], made with the parameters 7. *)
Definition cache_after_batch (n : nat) : JitCacheD :=
  Jitted.mkJitCache []
    [(([2; n], [[[]]; [[]]; [[]]; [[]]]), initialised n)].

Definition cache_after_episode (n : nat) : JitCacheD :=
  Jitted.mkJitCache
    [(([n], [[[]]; [[]]; [[]]; [[]]]), initialised n)] [].

End Demo.

Module Demo2.

Import Demo.

(** An agent whose actor state cannot be initialised, and one whose learner
    state cannot. *)
Definition NoActor : SubclassD :=
  {| class_name := "NoActor";
     action_selection := action_selection Learning;
     prepare_experience := prepare_experience Learning;
     store_experience := store_experience Learning;
     update_learner := update_learner Learning;
     init_learner_state := init_learner_state Learning;
     init_actor_state := fun _ => inl (OtherError "ValueError" "no actor") |}.

Definition NoLearner : SubclassD :=
  {| class_name := "NoLearner";
     action_selection := action_selection Learning;
     prepare_experience := prepare_experience Learning;
     store_experience := store_experience Learning;
     update_learner := update_learner Learning;
     init_learner_state := fun _ =>
       inl (OtherError "ValueError" "no learner");
     init_actor_state := init_actor_state Learning |}.

(** An agent whose learner is not traceable. *)
Definition Untraceable : SubclassD :=
  {| class_name := "Untraceable";
     action_selection := action_selection Learning;
     prepare_experience := prepare_experience Learning;
     store_experience := store_experience Learning;
     update_learner := fun agent_params learner_state =>
       inl (OtherError "TracerBoolConversionError"
              "Attempted boolean conversion of traced array");
     init_learner_state := init_learner_state Learning;
     init_actor_state := init_actor_state Learning |}.

(** An environment whose reward is the pair of the state and the action. *)
Definition step_pairs (key : nat) (env_params : EnvParams)
    (state action : nat) : result (nat * nat * ndarray nat * bool * unit) :=
  inr (S (S state), S state, mk_ndarray [2] [state; action], false, tt).

Definition initialised_pairs (n : nat) : SelfD :=
  mkSelf step_pairs reset (env_params n) n (Some 7) (Some 0) (Some 0).

End Demo2.

(** An environment whose observations and states are arrays. *)
Module Demo3.

Import Demo.

#[export] Instance arrays
    : Jax nat (ndarray nat) (ndarray nat) EnvParams nat nat nat :=
  { split3 := fun k => (3 * k + 1, 3 * k + 2, 3 * k + 3);
    obs_squeeze := @squeeze nat;
    state_squeeze := @squeeze nat;
    getitem := lookup;
    obs_shape := @shape nat;
    state_shape := @shape nat;
    obs_squeeze_shape := fun _ => eq_refl;
    state_squeeze_shape := fun _ => eq_refl;
    env_params_type := fun p => map (fun _ => []) p;
    agent_params_type := fun _ => [[]];
    actor_state_type := fun _ => [[]];
    learner_state_type := fun _ => [[]] }.

Definition SubclassA : Type :=
  @Subclass nat (ndarray nat) (ndarray nat) nat nat nat nat nat nat result.
Definition SelfA : Type :=
  @Self nat (ndarray nat) (ndarray nat) EnvParams nat nat nat nat unit nat
    result.
Definition CarryA : Type :=
  @Carry nat (ndarray nat) (ndarray nat) EnvParams nat nat nat.

Definition Acting : SubclassA :=
  {| class_name := "Acting";
     action_selection := fun key obs agent_params actor_state =>
       inr (agent_params, S actor_state);
     prepare_experience := fun env_output actor_state => inr actor_state;
     store_experience := fun experience => inr tt;
     update_learner := fun agent_params learner_state =>
       inr (S agent_params, S learner_state);
     init_learner_state := fun agent_params => inr 0;
     init_actor_state := fun _ => inr 0 |}.

(** The step returns an observation of shape (1, 2) and a state of shape
    (1,): squeezed, they have the shapes (2,) and (). *)
Definition step_rows (key : nat) (env_params : EnvParams)
    (state : ndarray nat) (action : nat)
    : result (ndarray nat * ndarray nat * ndarray nat * bool * unit) :=
  inr (mk_ndarray [1; 2] [action; action],
       mk_ndarray [1] (map S (data state)), scalar 1, false, tt).

(** A reset whose observation and state have the squeezed shapes, and one
    whose observation has the shape (1, 2) of the observations of the
    step. *)
Definition reset_flat (key : nat) (env_params : EnvParams)
    : result (ndarray nat * ndarray nat) :=
  inr (mk_ndarray [2] [0; 0], scalar 0).

Definition reset_rows (key : nat) (env_params : EnvParams)
    : result (ndarray nat * ndarray nat) :=
  inr (mk_ndarray [1; 2] [0; 0], scalar 0).

Definition flat (n : nat) : SelfA :=
  mkSelf step_rows reset_flat (env_params n) n (Some 7) (Some 0) (Some 0).

Definition rows (n : nat) : SelfA :=
  mkSelf step_rows reset_rows (env_params n) n (Some 7) (Some 0) (Some 0).

End Demo3.

(** * Properties of the rollouts *)

(** ** The methods as functions *)

Lemma bind_inr {A B : Type} (c : result A) (f : A -> result B) (b : B) :
  bind c f = inr b -> exists a, c = inr a /\ f a = inr b.
Proof.
  destruct c as [e | a]; simpl; intros H.
  - discriminate H.
  - exists a. split; [reflexivity | exact H].
Qed.

(** Takes a successful sequence of calls apart, one call at a time. *)
Ltac invert_bind H :=
  let a := fresh "v" in
  let Ha := fresh "Hcall" in
  apply bind_inr in H; destruct H as (a & Ha & H).

(** *** The scan *)

Section Scan.

Context {C X Y : Type}.
Variable f : C -> X -> result (C * Y).

Lemma scan_cons_inr (c c' : C) (x : X) (xs : list X) (ys : list Y) :
  scan f c (x :: xs) = inr (c', ys) ->
  exists c1 y ys', f c x = inr (c1, y) /\
                   scan f c1 xs = inr (c', ys') /\ ys = y :: ys'.
Proof.
  cbn [scan]. intros H.
  invert_bind H. destruct v as [c1 y].
  invert_bind H. destruct v as [c2 ys'].
  simpl in H. injection H as <- <-.
  exists c1, y, ys'. repeat split; assumption.
Qed.

Lemma scan_cons_step (c c1 : C) (x : X) (y : Y) (xs : list X) :
  f c x = inr (c1, y) ->
  scan f c (x :: xs) =
    match scan f c1 xs with
    | inl e => inl e
    | inr (c', ys) => inr (c', y :: ys)
    end.
Proof.
  intros Hf. cbn [scan]. rewrite Hf. simpl.
  destruct (scan f c1 xs) as [e | [c' ys]]; reflexivity.
Qed.

(** One output per scanned element. *)
Lemma scan_length (xs : list X) : forall (c c' : C) (ys : list Y),
  scan f c xs = inr (c', ys) -> length ys = length xs.
Proof.
  induction xs as [| x xs IH]; intros c c' ys H.
  - simpl in H. injection H as <- <-. reflexivity.
  - apply scan_cons_inr in H. destruct H as (c1 & y & ys' & _ & Hrest & ->).
    simpl. f_equal. exact (IH _ _ _ Hrest).
Qed.

(** What every step keeps, the scan keeps. *)
Lemma scan_invariant (P : C -> Prop) :
  (forall c x c' y, P c -> f c x = inr (c', y) -> P c') ->
  forall (xs : list X) (c c' : C) (ys : list Y),
    P c -> scan f c xs = inr (c', ys) -> P c'.
Proof.
  intros Hstep xs.
  induction xs as [| x xs IH]; intros c c' ys Hc H.
  - simpl in H. injection H as <- <-. exact Hc.
  - apply scan_cons_inr in H. destruct H as (c1 & y & ys' & Hf & Hrest & ->).
    apply (IH c1 c' ys'); [| exact Hrest].
    exact (Hstep _ _ _ _ Hc Hf).
Qed.

(** What holds of the output of every step holds of every output. *)
Lemma scan_outputs (Q : Y -> Prop) :
  (forall c x c' y, f c x = inr (c', y) -> Q y) ->
  forall (xs : list X) (c c' : C) (ys : list Y),
    scan f c xs = inr (c', ys) -> Forall Q ys.
Proof.
  intros Hstep xs.
  induction xs as [| x xs IH]; intros c c' ys H.
  - simpl in H. injection H as <- <-. constructor.
  - apply scan_cons_inr in H. destruct H as (c1 & y & ys' & Hf & Hrest & ->).
    constructor; [exact (Hstep _ _ _ _ Hf) | exact (IH _ _ _ Hrest)].
Qed.

(** A scan that returns has returned after each of its first steps. *)
Lemma scan_prefix (xs xs' : list X) : forall (c c' : C) (ys : list Y),
  scan f c (xs ++ xs') = inr (c', ys) ->
  exists c1 ys1 ys2, scan f c xs = inr (c1, ys1) /\
                     scan f c1 xs' = inr (c', ys2) /\ ys = ys1 ++ ys2.
Proof.
  induction xs as [| x xs IH]; intros c c' ys H.
  - exists c, [], ys. simpl. repeat split. exact H.
  - rewrite <- app_comm_cons in H.
    apply scan_cons_inr in H. destruct H as (c1 & y & ys' & Hf & Hrest & ->).
    destruct (IH _ _ _ Hrest) as (c2 & ys1 & ys2 & H1 & H2 & ->).
    exists c2, (y :: ys1), ys2.
    rewrite (scan_cons_step xs Hf), H1. repeat split. exact H2.
Qed.

(** Where every step returns, the scan returns. *)
Lemma scan_total (P : C -> Prop) (Q : Y -> Prop) :
  (forall c x, P c -> exists c' y, f c x = inr (c', y) /\ P c' /\ Q y) ->
  forall (xs : list X) (c : C),
    P c ->
    exists c' ys, scan f c xs = inr (c', ys) /\ P c' /\ Forall Q ys.
Proof.
  intros Hstep xs.
  induction xs as [| x xs IH]; intros c Hc.
  - exists c, []. simpl. repeat split; [exact Hc | constructor].
  - destruct (Hstep c x Hc) as (c1 & y & Hf & Hc1 & Hy).
    destruct (IH c1 Hc1) as (c' & ys & Hrest & Hc' & Hys).
    exists c', (y :: ys).
    rewrite (scan_cons_step xs Hf), Hrest.
    repeat split; [exact Hc' | constructor; assumption].
Qed.

End Scan.

(** *** The batch *)

Section Vmap.

Context {A B C : Type}.
Variable f : A -> result (B * C).

Lemma vmap_cons_inr (row : A) (rows : list A) (bs : list B) (cs : list C) :
  vmap f (row :: rows) = inr (bs, cs) ->
  exists b c bs' cs', f row = inr (b, c) /\ vmap f rows = inr (bs', cs') /\
                      bs = b :: bs' /\ cs = c :: cs'.
Proof.
  cbn [vmap]. intros H.
  invert_bind H. destruct v as [b c].
  invert_bind H. destruct v as [bs' cs'].
  simpl in H. injection H as <- <-.
  exists b, c, bs', cs'. repeat split; assumption.
Qed.

(** Row [i] of each result of [vmap f] is what [f] returns on row [i] of the
    batch. *)
Lemma vmap_rows (rows : list A) : forall (bs : list B) (cs : list C),
  vmap f rows = inr (bs, cs) ->
  length bs = length rows /\ length cs = length rows /\
  forall i row, nth_error rows i = Some row ->
    exists b c, nth_error bs i = Some b /\ nth_error cs i = Some c /\
                f row = inr (b, c).
Proof.
  induction rows as [| row rows IH]; intros bs cs H.
  - simpl in H. injection H as <- <-.
    repeat split. intros [| i] r Hr; discriminate Hr.
  - apply vmap_cons_inr in H.
    destruct H as (b & c & bs' & cs' & Hf & Hrest & -> & ->).
    destruct (IH _ _ Hrest) as (Hb & Hc & Hrows).
    simpl. repeat split; [now f_equal | now f_equal |].
    intros [| i] r Hr; simpl in Hr.
    + injection Hr as <-. exists b, c. repeat split. exact Hf.
    + exact (Hrows i r Hr).
Qed.

(** Where [f] returns on every row, [vmap f] returns the rows of results. *)
Lemma vmap_returns (rows : list A) : forall (bs : list B) (cs : list C),
  length bs = length rows -> length cs = length rows ->
  (forall i row b c, nth_error rows i = Some row ->
     nth_error bs i = Some b -> nth_error cs i = Some c ->
     f row = inr (b, c)) ->
  vmap f rows = inr (bs, cs).
Proof.
  induction rows as [| row rows IH]; intros bs cs Hb Hc Hrows.
  - destruct bs; [| discriminate Hb]. destruct cs; [| discriminate Hc].
    reflexivity.
  - destruct bs as [| b bs]; [discriminate Hb |].
    destruct cs as [| c cs]; [discriminate Hc |].
    cbn [vmap]. rewrite (Hrows 0 row b c eq_refl eq_refl eq_refl). simpl.
    rewrite (IH bs cs).
    + reflexivity.
    + simpl in Hb. lia.
    + simpl in Hc. lia.
    + intros i r b' c' Hr Hb' Hc'. exact (Hrows (S i) r b' c' Hr Hb' Hc').
Qed.

End Vmap.

(** ** More on the scan *)

Section ScanMore.

Context {C X Y : Type}.
Variable f : C -> X -> result (C * Y).

(** A scan over two lists in a row: the second scan starts from the carry of
    the first, and its outputs follow the outputs of the first. *)
Lemma scan_app (xs xs' : list X) : forall (c c1 : C) (ys1 : list Y),
  scan f c xs = inr (c1, ys1) ->
  scan f c (xs ++ xs') =
    match scan f c1 xs' with
    | inl e => inl e
    | inr (c', ys2) => inr (c', ys1 ++ ys2)
    end.
Proof.
  induction xs as [| x xs IH]; intros c c1 ys1 H.
  - simpl in H. injection H as <- <-. simpl.
    destruct (scan f c xs') as [e | [c' ys2]]; reflexivity.
  - apply scan_cons_inr in H. destruct H as (c0 & y & ys' & Hf & Hrest & ->).
    rewrite <- app_comm_cons. erewrite scan_cons_step; [| exact Hf].
    rewrite (IH _ _ _ Hrest).
    destruct (scan f c1 xs') as [e | [c' ys2]]; reflexivity.
Qed.

(** A step that raises ends the scan with its exception. *)
Lemma scan_cons_inl (c : C) (x : X) (xs : list X) (e : exn) :
  f c x = inl e -> scan f c (x :: xs) = inl e.
Proof. intros Hf. cbn [scan]. rewrite Hf. reflexivity. Qed.

(** Two bodies with the same results give the same scan. *)
Lemma scan_ext (g : C -> X -> result (C * Y)) :
  (forall c x, f c x = g c x) ->
  forall xs c, scan f c xs = scan g c xs.
Proof.
  intros Hfg xs.
  induction xs as [| x xs IH]; intros c; cbn [scan].
  - reflexivity.
  - rewrite Hfg. destruct (g c x) as [e | [c1 y]]; simpl.
    + reflexivity.
    + rewrite IH. reflexivity.
Qed.

End ScanMore.

Lemma zeros_succ (n : nat) : zeros (S n) = zeros n ++ [0].
Proof. unfold zeros. apply repeat_cons. Qed.

(** ** The rollouts *)

Section Evaluated.

Context {Key Obs State EnvParams AgentParams ActorState LearnerState : Type}.
Context {Action Info Experience R : Type}.
Context {jax : Jax Key Obs State EnvParams AgentParams ActorState
                 LearnerState}.

Local Abbreviation SubclassR :=
  (@Subclass Key Obs State AgentParams ActorState LearnerState Action
     Experience R result).
Local Abbreviation SelfR :=
  (@Self Key Obs State EnvParams AgentParams ActorState LearnerState Action
     Info R result).
Local Abbreviation CarryR :=
  (@Carry Key Obs State EnvParams AgentParams ActorState LearnerState).

Variable cls : SubclassR.

(** *** One step *)

(** What a step that returns has done: the calls it made, with the keys it
    gave them, and the carry it built from their results. *)
Lemma actor_learner_step_inr (self : SelfR) (c c' : CarryR) (tmp : nat)
    (y : list (ndarray R)) :
  actor_learner_step cls self c tmp = inr (c', y) ->
  exists action actor_state next_obs next_state reward done info
         experience agent_params learner_state,
    action_selection cls (act_key (carry_rng c)) (carry_obs c)
      (carry_agent_params c) (carry_actor_state c)
      = inr (action, actor_state) /\
    self_step self (step_key (carry_rng c)) (carry_env_params c)
      (carry_state c) action
      = inr (next_obs, next_state, reward, done, info) /\
    prepare_experience cls
      (carry_state c, next_state, carry_obs c, next_obs, action, reward,
       done) actor_state = inr experience /\
    store_experience cls experience = inr tt /\
    update_learner cls (carry_agent_params c) (carry_learner_state c)
      = inr (agent_params, learner_state) /\
    c' = mkCarry (next_key (carry_rng c)) (obs_squeeze next_obs)
           (state_squeeze next_state) (carry_env_params c) agent_params
           actor_state learner_state /\
    y = [reward].
Proof.
  unfold actor_learner_step, perform_transition, next_key, act_key, step_key.
  destruct (split3 (carry_rng c)) as [[rng key_act] key_step]. simpl fst; simpl snd.
  intros H.
  invert_bind H. destruct v as [action actor_state].
  invert_bind H. destruct v as [[[[next_obs next_state] reward] done] info].
  invert_bind Hcall0. destruct v as [[[[o1 s1] r1] d1] i1].
  simpl in Hcall0. injection Hcall0 as -> -> -> -> ->.
  invert_bind H. rename v into experience.
  invert_bind H. destruct v.
  invert_bind H. destruct v as [agent_params learner_state].
  simpl in H. injection H as <- <-.
  exists action, actor_state, next_obs, next_state, reward, done, info,
    experience, agent_params, learner_state.
  repeat split; assumption.
Qed.

(** The output of a step is the one-element list of its reward. *)
Lemma actor_learner_step_output (self : SelfR) (c c' : CarryR)
    (tmp : nat) (y : list (ndarray R)) :
  actor_learner_step cls self c tmp = inr (c', y) -> length y = 1.
Proof.
  intros H. apply actor_learner_step_inr in H.
  destruct H as (? & ? & ? & ? & ? & ? & ? & ? & ? & ? & H).
  destruct H as (_ & _ & _ & _ & _ & _ & ->). reflexivity.
Qed.

(** The slice of [jnp.zeros] that a step is given has no part in it. *)
Lemma actor_learner_step_tmp (self : SelfR) (c : CarryR) (tmp tmp' : nat) :
  actor_learner_step cls self c tmp = actor_learner_step cls self c tmp'.
Proof. reflexivity. Qed.

(** *** The rollout of one episode *)

Lemma concat_singletons {A : Type} (ys : list (list A)) :
  Forall (fun y => length y = 1) ys -> length (concat ys) = length ys.
Proof.
  induction 1 as [| y ys Hy _ IH]; [reflexivity |].
  simpl. rewrite length_app, Hy, IH. reflexivity.
Qed.

(** The first leaf of outputs that have one leaf each. *)
Lemma leaf_singletons {A : Type} (ys : list (list (ndarray A))) :
  Forall (fun y => length y = 1) ys -> leaf 0 ys = concat ys.
Proof.
  induction 1 as [| y ys Hy _ IH]; [reflexivity |].
  destruct y as [| a [| b y]]; try discriminate Hy.
  change (a :: leaf 0 ys = a :: concat ys). rewrite IH. reflexivity.
Qed.

Lemma scan_step_outputs (self : SelfR) (xs : list nat) (c c' : CarryR)
    (ys : list (list (ndarray R))) :
  scan (actor_learner_step cls self) c xs = inr (c', ys) ->
  Forall (fun y => length y = 1) ys.
Proof.
  intros Hscan.
  refine (scan_outputs (actor_learner_step cls self) _ _ _ _ Hscan).
  intros c0 x c1 y Hstep.
  apply actor_learner_step_output in Hstep. exact Hstep.
Qed.

(** What a rollout that returns has done: the reset, the trace of the step
    on the carry of the reset, which returns a carry of the same type, and
    the loop; its rewards are the rewards of the loop, stacked with the
    shape of the reward of the trace. *)
Lemma lax_rollout_inr (self : SelfR) (key : Key) (env_params : EnvParams)
    (n : nat) (agent_params : AgentParams) (actor_state : ActorState)
    (learner_state : LearnerState) (trace : CarryR) (rewards : ndarray R) :
  lax_rollout cls self key env_params n agent_params actor_state learner_state
    = inr (trace, rewards) ->
  exists obs0 state0 carry_out reward_out ys,
    self_reset self key env_params = inr (obs0, state0) /\
    actor_learner_step cls self
      (mkCarry key obs0 state0 env_params agent_params actor_state
         learner_state) 0 = inr (carry_out, [reward_out]) /\
    carry_type
      (mkCarry key obs0 state0 env_params agent_params actor_state
         learner_state) = carry_type carry_out /\
    scan (actor_learner_step cls self)
      (mkCarry key obs0 state0 env_params agent_params actor_state
         learner_state) (zeros n) = inr (trace, ys) /\
    rewards = squeeze (array [stack (shape reward_out) (concat ys)]).
Proof.
  unfold lax_rollout, lax_scan. intros H.
  invert_bind H. destruct v as [obs0 state0].
  invert_bind H. destruct v as [scan_out1 scan_out2].
  invert_bind Hcall0. destruct v as [carry_out y_out].
  destruct (avals_eq_dec _ _) as [Htype | _]; [| discriminate Hcall0].
  invert_bind Hcall0. destruct v as [carry ys].
  simpl in Hcall0. injection Hcall0 as <- <-.
  simpl in H. injection H as <- <-.
  pose proof Hcall1 as Hy. apply actor_learner_step_inr in Hy.
  destruct Hy as (? & ? & ? & ? & reward_out & ? & ? & ? & ? & ? & Hy).
  destruct Hy as (_ & _ & _ & _ & _ & _ & ->).
  exists obs0, state0, carry_out, reward_out, ys.
  repeat split; try assumption.
  unfold stack_outputs. simpl.
  rewrite (leaf_singletons (scan_step_outputs _ _ _ Hcall2)). reflexivity.
Qed.

(** Conversely: the reset returns, the trace returns a carry of the same
    type, the loop returns, so the rollout returns. *)
Lemma lax_rollout_returns (self : SelfR) (key : Key) (env_params : EnvParams)
    (n : nat) (agent_params : AgentParams) (actor_state : ActorState)
    (learner_state : LearnerState) (obs0 : Obs) (state0 : State)
    (carry_out trace : CarryR) (reward_out : ndarray R)
    (ys : list (list (ndarray R))) :
  self_reset self key env_params = inr (obs0, state0) ->
  actor_learner_step cls self
    (mkCarry key obs0 state0 env_params agent_params actor_state
       learner_state) 0 = inr (carry_out, [reward_out]) ->
  carry_type
    (mkCarry key obs0 state0 env_params agent_params actor_state
       learner_state) = carry_type carry_out ->
  scan (actor_learner_step cls self)
    (mkCarry key obs0 state0 env_params agent_params actor_state
       learner_state) (zeros n) = inr (trace, ys) ->
  lax_rollout cls self key env_params n agent_params actor_state learner_state
    = inr (trace, squeeze (array [stack (shape reward_out) (concat ys)])).
Proof.
  intros Hreset Htrace Htype Hscan. unfold lax_rollout, lax_scan.
  rewrite Hreset. cbn [bind Monad_either]. rewrite Htrace.
  cbn [bind Monad_either].
  destruct (avals_eq_dec _ _) as [_ | Hne]; [| contradiction].
  rewrite Hscan. unfold stack_outputs. simpl.
  rewrite (leaf_singletons (scan_step_outputs _ _ _ Hscan)). reflexivity.
Qed.

(** An instance whose collector is initialised: [episode_rollout] is
    [lax_rollout] on the stored attributes, inside the [try]. *)
Lemma episode_rollout_initialised (self : SelfR) (key : Key)
    (agent_params : AgentParams) (actor_state : ActorState)
    (learner_state : LearnerState) :
  self_agent_params self = Some agent_params ->
  self_actor_state self = Some actor_state ->
  self_learner_state self = Some learner_state ->
  episode_rollout cls self key =
    catch
      (lax_rollout cls self key (self_env_params self)
         (self_max_steps_in_episode self) agent_params actor_state
         learner_state)
      (except_AttributeError episode_hint).
Proof.
  intros Hap Has Hls. unfold episode_rollout. rewrite Hap, Has, Hls.
  reflexivity.
Qed.

(** The handler raises: what a [try] returns, its body has returned. *)
Lemma catch_inr {A : Type} (c : result A) (hint : string) (a : A) :
  catch c (except_AttributeError hint) = inr a <-> c = inr a.
Proof.
  destruct c as [e | a']; simpl.
  - split; [| discriminate]. destruct e; discriminate.
  - reflexivity.
Qed.

(** An [episode_rollout] that returns has found the three attributes and
    returns what [lax_rollout] returns on them. *)
Lemma episode_rollout_inr (self : SelfR) (key : Key) (trace : CarryR)
    (rewards : ndarray R) :
  episode_rollout cls self key = inr (trace, rewards) ->
  exists agent_params actor_state learner_state,
    self_agent_params self = Some agent_params /\
    self_actor_state self = Some actor_state /\
    self_learner_state self = Some learner_state /\
    lax_rollout cls self key (self_env_params self)
      (self_max_steps_in_episode self) agent_params actor_state learner_state
      = inr (trace, rewards).
Proof.
  unfold episode_rollout. intros H. apply catch_inr in H.
  invert_bind H. rename v into agent_params.
  invert_bind H. rename v into actor_state.
  invert_bind H. rename v into learner_state.
  exists agent_params, actor_state, learner_state.
  unfold getattr in Hcall, Hcall0, Hcall1.
  destruct (self_agent_params self); [| discriminate Hcall].
  destruct (self_actor_state self); [| discriminate Hcall0].
  destruct (self_learner_state self); [| discriminate Hcall1].
  simpl in Hcall, Hcall0, Hcall1.
  injection Hcall as ->. injection Hcall0 as ->. injection Hcall1 as ->.
  repeat split. exact H.
Qed.


(** *** The carry along the episode *)

Lemma actor_learner_step_env_params (self : SelfR) (c c' : CarryR)
    (tmp : nat) (y : list (ndarray R)) :
  actor_learner_step cls self c tmp = inr (c', y) ->
  carry_env_params c' = carry_env_params c.
Proof.
  intros H. apply actor_learner_step_inr in H.
  destruct H as (? & ? & ? & ? & ? & ? & ? & ? & ? & ? & H).
  destruct H as (_ & _ & _ & _ & _ & -> & _). reflexivity.
Qed.

Lemma actor_learner_step_rng (self : SelfR) (c c' : CarryR)
    (tmp : nat) (y : list (ndarray R)) :
  actor_learner_step cls self c tmp = inr (c', y) ->
  carry_rng c' = next_key (carry_rng c).
Proof.
  intros H. apply actor_learner_step_inr in H.
  destruct H as (? & ? & ? & ? & ? & ? & ? & ? & ? & ? & H).
  destruct H as (_ & _ & _ & _ & _ & -> & _). reflexivity.
Qed.

(** With a learner that returns what it is given, a step keeps the agent's
    parameters. *)
Lemma actor_learner_step_agent_params (self : SelfR) (c c' : CarryR)
    (tmp : nat) (y : list (ndarray R)) :
  (forall agent_params learner_state,
     update_learner cls agent_params learner_state
       = inr (agent_params, learner_state)) ->
  actor_learner_step cls self c tmp = inr (c', y) ->
  carry_agent_params c' = carry_agent_params c.
Proof.
  intros Hid H. apply actor_learner_step_inr in H.
  destruct H as (? & ? & ? & ? & ? & ? & ? & ? & ap & ls & H).
  destruct H as (_ & _ & _ & _ & Hup & -> & _).
  rewrite Hid in Hup. injection Hup as <- <-. reflexivity.
Qed.

(** The key of the carry after the scan: the key kept by [split3], once per
    step. *)
Lemma scan_rng (self : SelfR) (xs : list nat) : forall (c c' : CarryR) ys,
  scan (actor_learner_step cls self) c xs = inr (c', ys) ->
  carry_rng c' = Nat.iter (length xs) next_key (carry_rng c).
Proof.
  induction xs as [| x xs IH]; intros c c' ys H.
  - simpl in H. injection H as <- <-. reflexivity.
  - apply scan_cons_inr in H. destruct H as (c1 & y & ys' & Hf & Hrest & ->).
    apply actor_learner_step_rng in Hf.
    rewrite (IH _ _ _ Hrest), Hf.
    simpl length. rewrite Nat.iter_succ_r. reflexivity.
Qed.

Lemma zeros_length (n : nat) : length (zeros n) = n.
Proof. apply repeat_length. Qed.

Lemma zeros_split (k n : nat) :
  k <= n -> zeros n = zeros k ++ zeros (n - k).
Proof.
  intros Hk. unfold zeros. rewrite <- repeat_app. f_equal. lia.
Qed.

(** C7. The [env_params] field of the carry is invariant under
    [actor_learner_step]: the carry that a step returns has the [env_params]
    of the carry it was given; hence the final carry of a rollout has the
    [env_params] that the rollout was called with. *)
Theorem env_params_invariant (self : SelfR) :
  (forall (c c' : CarryR) (tmp : nat) (y : list (ndarray R)),
     actor_learner_step cls self c tmp = inr (c', y) ->
     carry_env_params c' = carry_env_params c) /\
  (forall key env_params n agent_params actor_state learner_state
          (trace : CarryR) (rewards : ndarray R),
     lax_rollout cls self key env_params n agent_params actor_state
       learner_state = inr (trace, rewards) ->
     carry_env_params trace = env_params).
Proof.
  split.
  - intros c c' tmp y. apply actor_learner_step_env_params.
  - intros key env_params n ap acs ls trace rewards H.
    apply lax_rollout_inr in H.
    destruct H as (obs0 & state0 & cout & rout & ys & _ & _ & _ & Hscan & _).
    refine (scan_invariant (actor_learner_step cls self)
              (fun c => carry_env_params c = env_params) _ _ _ _ Hscan).
    + intros c x c' y Hc Hstep.
      apply actor_learner_step_env_params in Hstep.
      rewrite Hstep. exact Hc.
    + reflexivity.
Qed.

(** C6. When [update_learner] returns the parameters and the learner state it
    is given, an episode that [episode_rollout] returns has the stored agent
    parameters in its final carry, and in the carry after each of its
    steps. *)
Theorem identity_learner_keeps_agent_params (self : SelfR) (key : Key)
    (trace : CarryR) (rewards : ndarray R) :
  (forall agent_params learner_state,
     update_learner cls agent_params learner_state
       = inr (agent_params, learner_state)) ->
  episode_rollout cls self key = inr (trace, rewards) ->
  exists agent_params actor_state learner_state obs0 state0,
    self_agent_params self = Some agent_params /\
    self_actor_state self = Some actor_state /\
    self_learner_state self = Some learner_state /\
    self_reset self key (self_env_params self) = inr (obs0, state0) /\
    carry_agent_params trace = agent_params /\
    forall k, k <= self_max_steps_in_episode self ->
      exists (carry : CarryR) ys,
        scan (actor_learner_step cls self)
          (mkCarry key obs0 state0 (self_env_params self) agent_params
             actor_state learner_state) (zeros k) = inr (carry, ys) /\
        carry_agent_params carry = agent_params.
Proof.
  intros Hid H.
  apply episode_rollout_inr in H.
  destruct H as (ap & acs & ls & Hap & Has & Hls & H).
  apply lax_rollout_inr in H.
  destruct H as (obs0 & state0 & cout & rout & ys & Hreset & _ & _ & Hscan & _).
  exists ap, acs, ls, obs0, state0.
  assert (Hkeep : forall xs (c c' : CarryR) zs,
             carry_agent_params c = ap ->
             scan (actor_learner_step cls self) c xs = inr (c', zs) ->
             carry_agent_params c' = ap).
  { intros xs c c' zs Hc Hs.
    refine (scan_invariant (actor_learner_step cls self)
              (fun c => carry_agent_params c = ap) _ _ _ Hc Hs).
    intros c0 x c1 y Hc0 Hstep.
    apply (actor_learner_step_agent_params _ _ _ Hid) in Hstep.
    rewrite Hstep. exact Hc0. }
  repeat split; try assumption.
  - eapply Hkeep; [| exact Hscan]. reflexivity.
  - intros k Hk. rewrite (zeros_split Hk) in Hscan.
    apply scan_prefix in Hscan.
    destruct Hscan as (ck & ys1 & ys2 & Hk1 & _ & _).
    exists ck, ys1. split; [exact Hk1 |].
    eapply Hkeep; [| exact Hk1]. reflexivity.
Qed.

(** C10. [lax_rollout] uses its key twice: [reset] is called with it, and
    the scan starts from a carry whose [rng] is the same key, so that the
    first step splits it: the first action is selected with the action key
    of the root key, the first transition is made with its step key, and the
    carry keeps its next key. *)
Theorem root_key_used_twice (self : SelfR) (key : Key)
    (env_params : EnvParams) (n : nat) (agent_params : AgentParams)
    (actor_state : ActorState) (learner_state : LearnerState)
    (trace : CarryR) (rewards : ndarray R) :
  lax_rollout cls self key env_params (S n) agent_params actor_state
    learner_state = inr (trace, rewards) ->
  exists obs0 state0 (carry1 : CarryR) y1 action actor_state1 step_out,
    self_reset self key env_params = inr (obs0, state0) /\
    actor_learner_step cls self
      (mkCarry key obs0 state0 env_params agent_params actor_state
         learner_state) 0 = inr (carry1, y1) /\
    split3 key = (carry_rng carry1, act_key key, step_key key) /\
    action_selection cls (act_key key) obs0 agent_params actor_state
      = inr (action, actor_state1) /\
    self_step self (step_key key) env_params state0 action = inr step_out /\
    carry_rng trace = Nat.iter n next_key (carry_rng carry1).
Proof.
  intros H. apply lax_rollout_inr in H.
  destruct H as (obs0 & state0 & cout & rout & ys & Hreset & _ & _ & Hscan & _).
  change (zeros (S n)) with (0 :: zeros n) in Hscan.
  apply scan_cons_inr in Hscan.
  destruct Hscan as (c1 & y & ys' & Hstep & Hrest & _).
  pose proof Hstep as Hinv. apply actor_learner_step_inr in Hinv.
  destruct Hinv as (action & as1 & o & s & r & d & i & ? & ? & ? & Hinv).
  destruct Hinv as (Hact & Henv & _ & _ & _ & Hc1 & _).
  simpl in Hact, Henv.
  exists obs0, state0, c1, y, action, as1, (o, s, r, d, i).
  repeat split; try assumption.
  - rewrite Hc1. unfold next_key, act_key, step_key. simpl.
    destruct (split3 key) as [[k1 k2] k3]. reflexivity.
  - apply scan_rng in Hrest. rewrite Hrest, zeros_length. reflexivity.
Qed.

(** *** The two entry points *)

Lemma bind_ret_pair {A B : Type} (c : result (A * B)) :
  (' (a, b) <- c ;; ret (a, b)) = c.
Proof. destruct c as [e | [a b]]; reflexivity. Qed.

Lemma batch_rollout_initialised (self : SelfR) (keys : list Key)
    (agent_params : AgentParams) (actor_state : ActorState)
    (learner_state : LearnerState) :
  self_agent_params self = Some agent_params ->
  self_actor_state self = Some actor_state ->
  self_learner_state self = Some learner_state ->
  batch_rollout cls self keys =
    catch
      (vmap (fun key =>
               lax_rollout cls self key (self_env_params self)
                 (self_max_steps_in_episode self) agent_params actor_state
                 learner_state) keys)
      (except_AttributeError batch_hint).
Proof.
  intros Hap Has Hls. unfold batch_rollout, vmap_rollout.
  rewrite Hap, Has, Hls. simpl.
  destruct (vmap _ keys) as [e | [traces rewards]]; reflexivity.
Qed.

(** A [batch_rollout] that returns has found the three attributes. *)
Lemma batch_rollout_inr (self : SelfR) (keys : list Key)
    (traces : list CarryR) (rewards : list (ndarray R)) :
  batch_rollout cls self keys = inr (traces, rewards) ->
  exists agent_params actor_state learner_state,
    self_agent_params self = Some agent_params /\
    self_actor_state self = Some actor_state /\
    self_learner_state self = Some learner_state.
Proof.
  unfold batch_rollout. intros H. apply catch_inr in H.
  unfold getattr in H.
  destruct (self_agent_params self) as [ap |]; [| discriminate H].
  destruct (self_actor_state self) as [acs |]; [| discriminate H].
  destruct (self_learner_state self) as [ls |]; [| discriminate H].
  exists ap, acs, ls. repeat split.
Qed.

(** C5. On an instance as [__init__] leaves it, [episode_rollout] and
    [batch_rollout] raise an [AttributeError] whose message is the message of
    the failed lookup of [agent_params] followed by the hint of the entry
    point. *)
Theorem rollout_before_init_collector
    (step : Key -> EnvParams -> State -> Action -> result StepOut)
    (reset : Key -> EnvParams -> result (Obs * State))
    (env_params : EnvParams) (self : SelfR) (key : Key) (keys : list Key) :
  __init__ step reset env_params = inr self ->
  exists original,
    getattr cls "agent_params" (self_agent_params self)
      = inl (AttributeError original) /\
    original = no_attribute (class_name cls) "agent_params" /\
    episode_rollout cls self key
      = inl (AttributeError (original ++ episode_hint)) /\
    batch_rollout cls self keys
      = inl (AttributeError (original ++ batch_hint)).
Proof.
  unfold __init__. intros H.
  destruct (getitem env_params "max_steps_in_episode") as [n |];
    [| discriminate H].
  simpl in H. injection H as <-.
  exists (no_attribute (class_name cls) "agent_params").
  repeat split.
Qed.

(** C8, on the code.  The [try] of the two entry points covers the whole
    rollout, and with the collector initialised an [AttributeError] that a
    hook raises, or an exception of a subclass of it, does not reach the
    caller as it is: a plain [AttributeError] with the hint about the
    collector appended to the message is raised in its place.  An exception
    of any other class reaches the caller as it is. *)
Theorem attribute_errors_annotated_others_propagate (self : SelfR)
    (key : Key) (keys : list Key) (agent_params : AgentParams)
    (actor_state : ActorState) (learner_state : LearnerState) (e : exn) :
  self_agent_params self = Some agent_params ->
  self_actor_state self = Some actor_state ->
  self_learner_state self = Some learner_state ->
  (lax_rollout cls self key (self_env_params self)
     (self_max_steps_in_episode self) agent_params actor_state learner_state
     = inl e ->
   episode_rollout cls self key =
     inl match e with
         | AttributeError msg => AttributeError (msg ++ episode_hint)
         | AttributeErrorSubclass _ msg =>
             AttributeError (msg ++ episode_hint)
         | _ => e
         end) /\
  (vmap_rollout cls self keys (self_env_params self)
     (self_max_steps_in_episode self) agent_params actor_state learner_state
     = inl e ->
   batch_rollout cls self keys =
     inl match e with
         | AttributeError msg => AttributeError (msg ++ batch_hint)
         | AttributeErrorSubclass _ msg => AttributeError (msg ++ batch_hint)
         | _ => e
         end).
Proof.
  intros Hap Has Hls. split; intros H.
  - rewrite (episode_rollout_initialised _ _ Hap Has Hls), H.
    destruct e; reflexivity.
  - unfold batch_rollout. rewrite Hap, Has, Hls.
    cbn [getattr bind ret Monad_either]. rewrite H.
    destruct e; reflexivity.
Qed.

(** *** The array of rewards *)

(** The shape of the rewards of a rollout of [n] steps: the axes of [n]
    followed by the shape of the reward of a step, without those of length
    one. *)
Lemma lax_rollout_reward_shape (self : SelfR) (key : Key)
    (env_params : EnvParams) (n : nat) (agent_params : AgentParams)
    (actor_state : ActorState) (learner_state : LearnerState)
    (trace : CarryR) (rewards : ndarray R) :
  lax_rollout cls self key env_params n agent_params actor_state learner_state
    = inr (trace, rewards) ->
  exists obs0 state0 carry_out reward_out,
    self_reset self key env_params = inr (obs0, state0) /\
    actor_learner_step cls self
      (mkCarry key obs0 state0 env_params agent_params actor_state
         learner_state) 0 = inr (carry_out, [reward_out]) /\
    shape rewards =
      filter (fun d => negb (d =? 1)) (n :: shape reward_out).
Proof.
  intros H. apply lax_rollout_inr in H.
  destruct H as (obs0 & state0 & cout & rout & ys & Hreset & Htrace & _
                 & Hscan & ->).
  exists obs0, state0, cout, rout.
  split; [exact Hreset |]. split; [exact Htrace |].
  assert (Hlen : length (concat ys) = n).
  { rewrite (concat_singletons (scan_step_outputs _ _ _ Hscan)).
    apply scan_length in Hscan. rewrite Hscan. apply zeros_length. }
  unfold squeeze, array, stack. cbn [shape length filter Nat.eqb negb].
  rewrite Hlen. reflexivity.
Qed.

(** An episode of any number of steps but one: the rewards have the length
    of the episode. *)
Lemma episode_rollout_reward_len (self : SelfR) (key : Key) (trace : CarryR)
    (rewards : ndarray R) :
  self_max_steps_in_episode self <> 1 ->
  episode_rollout cls self key = inr (trace, rewards) ->
  len rewards = Some (self_max_steps_in_episode self).
Proof.
  intros Hn H. apply episode_rollout_inr in H.
  destruct H as (ap & acs & ls & _ & _ & _ & H).
  apply lax_rollout_reward_shape in H.
  destruct H as (obs0 & state0 & cout & rout & _ & _ & H).
  unfold len. rewrite H. cbn [filter].
  destruct (Nat.eqb_spec (self_max_steps_in_episode self) 1) as [E | _].
  - contradiction.
  - reflexivity.
Qed.

(** C2, at an episode of one step.  [squeeze] removes the axis of the steps
    with the axis that [jnp.array] adds: the rewards that [episode_rollout]
    returns are the reward of the step, squeezed, and their length, where
    they have one, is not 1. *)
Theorem one_step_episode_reward_len (self : SelfR) (key : Key)
    (trace : CarryR) (rewards : ndarray R) :
  self_max_steps_in_episode self = 1 ->
  episode_rollout cls self key = inr (trace, rewards) ->
  (exists agent_params actor_state learner_state obs0 state0 reward,
     self_agent_params self = Some agent_params /\
     self_actor_state self = Some actor_state /\
     self_learner_state self = Some learner_state /\
     self_reset self key (self_env_params self) = inr (obs0, state0) /\
     actor_learner_step cls self
       (mkCarry key obs0 state0 (self_env_params self) agent_params
          actor_state learner_state) 0 = inr (trace, [reward]) /\
     shape rewards = filter (fun d => negb (d =? 1)) (shape reward) /\
     data rewards = data reward) /\
  len rewards <> Some (self_max_steps_in_episode self).
Proof.
  intros Hn H. apply episode_rollout_inr in H.
  destruct H as (ap & acs & ls & Hap & Has & Hls & H).
  rewrite Hn in *.
  apply lax_rollout_inr in H.
  destruct H as (obs0 & state0 & cout & rout & ys & Hreset & Htrace & _
                 & Hscan & ->).
  change (zeros 1) with [0] in Hscan.
  apply scan_cons_inr in Hscan.
  destruct Hscan as (c1 & y & ys' & Hstep & Hnil & ->).
  simpl in Hnil. injection Hnil as <- <-.
  rewrite Htrace in Hstep. injection Hstep as <- <-.
  assert (Hshape :
            shape (squeeze (array [stack (shape rout) (concat [[rout]])]))
              = filter (fun d => negb (d =? 1)) (shape rout))
    by reflexivity.
  split.
  - exists ap, acs, ls, obs0, state0, rout.
    do 5 (split; [assumption |]). split; [exact Hshape |].
    simpl. rewrite !app_nil_r. reflexivity.
  - unfold len. rewrite Hshape.
    destruct (filter (fun d => negb (d =? 1)) (shape rout))
      as [| d sh] eqn:E.
    + discriminate.
    + intros [= ->].
      assert (Hin : In 1 (filter (fun d => negb (d =? 1)) (shape rout)))
        by (rewrite E; left; reflexivity).
      apply filter_In in Hin. destruct Hin as [_ Hin]. discriminate Hin.
Qed.


End Evaluated.

(** ** More on the rollouts *)

Section Further.

Context {Key Obs State EnvParams AgentParams ActorState LearnerState : Type}.
Context {Action Info Experience R : Type}.
Context {jax : Jax Key Obs State EnvParams AgentParams ActorState
                 LearnerState}.

Local Abbreviation SubclassR :=
  (@Subclass Key Obs State AgentParams ActorState LearnerState Action
     Experience R result).
Local Abbreviation SelfR :=
  (@Self Key Obs State EnvParams AgentParams ActorState LearnerState Action
     Info R result).
Local Abbreviation CarryR :=
  (@Carry Key Obs State EnvParams AgentParams ActorState LearnerState).

Variable cls : SubclassR.

(** The elements of the rewards of a rollout: those of the rewards of its
    steps, in the order of the steps. *)
Lemma rewards_data (sh : list nat) (ys : list (list (ndarray R))) :
  data (squeeze (array [stack sh (concat ys)]))
    = flat_map (@data R) (concat ys).
Proof. simpl. apply app_nil_r. Qed.

(** X5. A hook that raises while the step is traced ends every rollout:
    when the reset returns and the step raises [e] on the carry of the
    reset, [lax_rollout] raises [e] whatever the number of steps, none
    included. *)
Theorem rollout_raises_what_the_trace_raises (self : SelfR) (key : Key)
    (env_params : EnvParams) (n : nat) (agent_params : AgentParams)
    (actor_state : ActorState) (learner_state : LearnerState)
    (obs0 : Obs) (state0 : State) (e : exn) :
  self_reset self key env_params = inr (obs0, state0) ->
  actor_learner_step cls self
    (mkCarry key obs0 state0 env_params agent_params actor_state
       learner_state) 0 = inl e ->
  lax_rollout cls self key env_params n agent_params actor_state
    learner_state = inl e.
Proof.
  intros Hreset Hstep.
  unfold lax_rollout, lax_scan. rewrite Hreset. cbn [bind Monad_either].
  rewrite Hstep. reflexivity.
Qed.

(** X6. One more step: a rollout of [S n] steps is the rollout of [n] steps
    followed by one step from its final carry, and its rewards are the
    rewards of the [n] steps followed by the reward of that step. *)
Theorem rollout_one_more_step (self : SelfR) (key : Key)
    (env_params : EnvParams) (n : nat) (agent_params : AgentParams)
    (actor_state : ActorState) (learner_state : LearnerState)
    (trace trace' : CarryR) (rewards : ndarray R) (y : list (ndarray R)) :
  lax_rollout cls self key env_params n agent_params actor_state
    learner_state = inr (trace, rewards) ->
  actor_learner_step cls self trace 0 = inr (trace', y) ->
  exists reward rewards',
    y = [reward] /\
    lax_rollout cls self key env_params (S n) agent_params actor_state
      learner_state = inr (trace', rewards') /\
    data rewards' = data rewards ++ data reward.
Proof.
  intros Hroll Hstep.
  apply lax_rollout_inr in Hroll.
  destruct Hroll as (obs0 & state0 & cout & rout & ys & Hreset & Htrace
                     & Htype & Hscan & ->).
  pose proof Hstep as Hy. apply actor_learner_step_inr in Hy.
  destruct Hy as (? & ? & ? & ? & reward & ? & ? & ? & ? & ? & Hy).
  destruct Hy as (_ & _ & _ & _ & _ & _ & ->).
  exists reward,
    (squeeze (array [stack (shape rout) (concat (ys ++ [[reward]]))])).
  split; [reflexivity |]. split.
  - apply lax_rollout_returns
      with (obs0 := obs0) (state0 := state0) (carry_out := cout);
      [exact Hreset | exact Htrace | exact Htype |].
    rewrite zeros_succ. erewrite scan_app; [| exact Hscan].
    erewrite scan_cons_step; [| exact Hstep]. reflexivity.
  - rewrite !rewards_data, concat_app, flat_map_app. simpl.
    rewrite !app_nil_r. reflexivity.
Qed.

(** X7. A shorter episode is the beginning of a longer one: when the rollout
    of [n] steps returns, the rollout of [k <= n] steps from the same key
    returns, its rewards are the first rewards of the longer rollout, and
    the [n - k] steps that are left lead from its final carry to the final
    carry of the longer rollout. *)
Theorem rollout_prefix (self : SelfR) (key : Key)
    (env_params : EnvParams) (n k : nat) (agent_params : AgentParams)
    (actor_state : ActorState) (learner_state : LearnerState)
    (trace : CarryR) (rewards : ndarray R) :
  k <= n ->
  lax_rollout cls self key env_params n agent_params actor_state
    learner_state = inr (trace, rewards) ->
  exists (trace_k : CarryR) rewards_k ys rest,
    lax_rollout cls self key env_params k agent_params actor_state
      learner_state = inr (trace_k, rewards_k) /\
    scan (actor_learner_step cls self) trace_k (zeros (n - k))
      = inr (trace, ys) /\
    rest = flat_map (@data R) (concat ys) /\
    data rewards = data rewards_k ++ rest.
Proof.
  intros Hk Hroll.
  apply lax_rollout_inr in Hroll.
  destruct Hroll as (obs0 & state0 & cout & rout & ys & Hreset & Htrace
                     & Htype & Hscan & ->).
  rewrite (zeros_split Hk) in Hscan. apply scan_prefix in Hscan.
  destruct Hscan as (ck & ys1 & ys2 & H1 & H2 & ->).
  exists ck, (squeeze (array [stack (shape rout) (concat ys1)])), ys2,
    (flat_map (@data R) (concat ys2)).
  split; [| split; [exact H2 | split; [reflexivity |]]].
  - apply lax_rollout_returns
      with (obs0 := obs0) (state0 := state0) (carry_out := cout);
      assumption.
  - rewrite !rewards_data, concat_app, flat_map_app. reflexivity.
Qed.

(** *** The life cycle of the collector *)

(** X1. An instance built by [__init__] and initialised by [init_collector]:
    the episode length is the entry [max_steps_in_episode] of the environment
    parameters, the collector holds the given agent parameters and the states
    that the two initialisers return, and [episode_rollout] is [lax_rollout]
    on these values. *)
Theorem collector_life_cycle
    (step : Key -> EnvParams -> State -> Action -> result StepOut)
    (reset : Key -> EnvParams -> result (Obs * State))
    (env_params : EnvParams) (self0 self : SelfR)
    (agent_params : AgentParams) :
  __init__ step reset env_params = inr self0 ->
  init_collector cls self0 agent_params = inr self ->
  exists n learner_state actor_state,
    getitem env_params "max_steps_in_episode" = Some n /\
    init_learner_state cls agent_params = inr learner_state /\
    init_actor_state cls tt = inr actor_state /\
    self = mkSelf step reset env_params n (Some agent_params)
             (Some learner_state) (Some actor_state) /\
    init_collector_instance cls self0 agent_params = self /\
    forall key,
      episode_rollout cls self key =
        catch
          (lax_rollout cls self key env_params n agent_params actor_state
             learner_state)
          (except_AttributeError episode_hint).
Proof.
  unfold __init__, init_collector, init_collector_instance.
  intros Hinit Hcoll.
  destruct (getitem env_params "max_steps_in_episode") as [n |];
    [| discriminate Hinit].
  simpl in Hinit. injection Hinit as <-.
  invert_bind Hcoll. rename v into learner_state.
  invert_bind Hcoll. rename v into actor_state.
  simpl in Hcoll. injection Hcoll as <-.
  exists n, learner_state, actor_state.
  rewrite Hcall, Hcall0. repeat split.
Qed.

(** X2. The class as it is, with no hook overridden: [init_collector] raises
    [NotImplementedError]; so does [episode_rollout], without a hint, on an
    instance that was given its collector attributes, when the reset returns
    and the episode has a step. *)
Theorem base_class_is_not_implemented (self : SelfR) (key : Key)
    (agent_params : AgentParams) (actor_state : ActorState)
    (learner_state : LearnerState) (obs0 : Obs) (state0 : State) :
  init_collector (BaseRollouts : SubclassR) self agent_params
    = inl NotImplementedError /\
  (self_agent_params self = Some agent_params ->
   self_actor_state self = Some actor_state ->
   self_learner_state self = Some learner_state ->
   self_reset self key (self_env_params self) = inr (obs0, state0) ->
   self_max_steps_in_episode self <> 0 ->
   episode_rollout (BaseRollouts : SubclassR) self key
     = inl NotImplementedError).
Proof.
  split; [reflexivity |].
  intros Hap Has Hls Hreset Hn.
  unfold episode_rollout, lax_rollout, lax_scan.
  rewrite Hap, Has, Hls. cbn [getattr bind ret Monad_either].
  rewrite Hreset. cbn [bind Monad_either].
  unfold actor_learner_step at 1. cbn [carry_rng].
  destruct (split3 key) as [[rng key_act] key_step]. reflexivity.
Qed.

(** X3. A rollout reports the first attribute that is missing, in the order
    in which the call reads them: [agent_params], [actor_state],
    [learner_state]; the environment and the hooks have no part in it. *)
Theorem first_missing_attribute_is_reported (self : SelfR) (key : Key)
    (keys : list Key) :
  let report := fun name =>
    episode_rollout cls self key =
      inl (AttributeError
             (no_attribute (class_name cls) name ++ episode_hint)) /\
    batch_rollout cls self keys =
      inl (AttributeError
             (no_attribute (class_name cls) name ++ batch_hint)) in
  match self_agent_params self, self_actor_state self,
        self_learner_state self with
  | None, _, _ => report "agent_params"%string
  | Some _, None, _ => report "actor_state"%string
  | Some _, Some _, None => report "learner_state"%string
  | Some _, Some _, Some _ => True
  end.
Proof.
  unfold episode_rollout, batch_rollout.
  destruct (self_agent_params self) as [ap |]; [| split; reflexivity].
  destruct (self_actor_state self) as [acs |]; [| split; reflexivity].
  destruct (self_learner_state self) as [ls |]; [| split; reflexivity].
  exact I.
Qed.

(** X4. After an [init_collector] that raised on a new instance, whichever of
    the two initialisers raised, [self.actor_state] is the attribute that a
    rollout reports: [init_collector] assigns it last. *)
Theorem failed_init_collector_is_reported
    (step : Key -> EnvParams -> State -> Action -> result StepOut)
    (reset : Key -> EnvParams -> result (Obs * State))
    (env_params : EnvParams) (self0 : SelfR) (agent_params : AgentParams)
    (e : exn) (key : Key) (keys : list Key) :
  __init__ step reset env_params = inr self0 ->
  init_collector cls self0 agent_params = inl e ->
  let self := init_collector_instance cls self0 agent_params in
  self_agent_params self = Some agent_params /\
  episode_rollout cls self key =
    inl (AttributeError
           (no_attribute (class_name cls) "actor_state" ++ episode_hint)) /\
  batch_rollout cls self keys =
    inl (AttributeError
           (no_attribute (class_name cls) "actor_state" ++ batch_hint)).
Proof.
  unfold __init__, init_collector, init_collector_instance.
  intros Hinit Hcoll.
  destruct (getitem env_params "max_steps_in_episode") as [n |];
    [| discriminate Hinit].
  simpl in Hinit. injection Hinit as <-.
  destruct (init_learner_state cls agent_params) as [e1 | learner_state].
  - repeat split.
  - destruct (init_actor_state cls tt) as [e2 | actor_state].
    + repeat split.
    + discriminate Hcoll.
Qed.

(** *** The learner along the episode *)

Lemma scan_learner (self : SelfR)
    (u : AgentParams * LearnerState -> AgentParams * LearnerState) :
  (forall p l, update_learner cls p l = inr (u (p, l))) ->
  forall (xs : list nat) (c c' : CarryR) ys,
    scan (actor_learner_step cls self) c xs = inr (c', ys) ->
    (carry_agent_params c', carry_learner_state c')
      = Nat.iter (length xs) u
          (carry_agent_params c, carry_learner_state c).
Proof.
  intros Hu xs.
  induction xs as [| x xs IH]; intros c c' ys H.
  - simpl in H. injection H as <- <-. reflexivity.
  - apply scan_cons_inr in H. destruct H as (c1 & y & ys' & Hf & Hrest & ->).
    rewrite (IH _ _ _ Hrest). simpl length. rewrite Nat.iter_succ_r.
    apply actor_learner_step_inr in Hf.
    destruct Hf as (? & ? & ? & ? & ? & ? & ? & ? & ap & ls & Hf).
    destruct Hf as (_ & _ & _ & _ & Hup & -> & _).
    rewrite Hu in Hup. injection Hup as Hup. rewrite Hup. reflexivity.
Qed.

(** X8. The learner is updated once per step, on what it returned at the
    step before: when [update_learner] computes [u], the agent parameters and
    the learner state of the final carry are [u] iterated
    [max_steps_in_episode] times on the ones the rollout was given, whatever
    the environment and the actor do. *)
Theorem learner_is_updated_once_per_step (self : SelfR) (key : Key)
    (env_params : EnvParams) (n : nat) (agent_params : AgentParams)
    (actor_state : ActorState) (learner_state : LearnerState)
    (trace : CarryR) (rewards : ndarray R)
    (u : AgentParams * LearnerState -> AgentParams * LearnerState) :
  (forall p l, update_learner cls p l = inr (u (p, l))) ->
  lax_rollout cls self key env_params n agent_params actor_state
    learner_state = inr (trace, rewards) ->
  (carry_agent_params trace, carry_learner_state trace)
    = Nat.iter n u (agent_params, learner_state).
Proof.
  intros Hu H. apply lax_rollout_inr in H.
  destruct H as (obs0 & state0 & cout & rout & ys & _ & _ & _ & Hscan & _).
  eapply scan_learner in Hscan; [| exact Hu].
  rewrite zeros_length in Hscan. exact Hscan.
Qed.

(** *** What [lax_rollout] reads of the instance *)

Lemma actor_learner_step_ext (self1 self2 : SelfR) :
  (forall k p s a, self_step self1 k p s a = self_step self2 k p s a) ->
  forall (c : CarryR) (x : nat),
    actor_learner_step cls self1 c x = actor_learner_step cls self2 c x.
Proof.
  intros Hstep c x. unfold actor_learner_step, perform_transition.
  destruct (split3 (carry_rng c)) as [[rng key_act] key_step].
  destruct (action_selection cls key_act (carry_obs c)
              (carry_agent_params c) (carry_actor_state c))
    as [e | [action acs]]; [reflexivity |].
  cbn [bind Monad_either]. rewrite Hstep. reflexivity.
Qed.

(** X9. [lax_rollout] reads the instance through [self.step] and
    [self.reset] only: on two instances with the same environment it has the
    same result, whether their collectors are initialised or not. *)
Theorem lax_rollout_reads_step_and_reset (self1 self2 : SelfR) (key : Key)
    (env_params : EnvParams) (n : nat) (agent_params : AgentParams)
    (actor_state : ActorState) (learner_state : LearnerState) :
  (forall k p, self_reset self1 k p = self_reset self2 k p) ->
  (forall k p s a, self_step self1 k p s a = self_step self2 k p s a) ->
  lax_rollout cls self1 key env_params n agent_params actor_state
    learner_state =
  lax_rollout cls self2 key env_params n agent_params actor_state
    learner_state.
Proof.
  intros Hreset Hstep. unfold lax_rollout, lax_scan.
  rewrite Hreset.
  destruct (self_reset self2 key env_params) as [e | [obs0 state0]];
    [reflexivity |].
  cbn [bind Monad_either].
  rewrite (actor_learner_step_ext _ _ Hstep).
  erewrite scan_ext; [reflexivity |].
  apply actor_learner_step_ext. exact Hstep.
Qed.

(** *** The array of rewards, again *)

Lemma prod_squeezed (sh : list nat) :
  fold_right Nat.mul 1 (filter (fun d => negb (d =? 1)) sh)
    = fold_right Nat.mul 1 sh.
Proof.
  induction sh as [| d sh IH]; [reflexivity |].
  cbn [filter fold_right].
  destruct (Nat.eqb_spec d 1) as [-> | _]; cbn [negb fold_right].
  - rewrite IH. lia.
  - rewrite IH. reflexivity.
Qed.

Lemma rewards_data_length (p : nat) (ys : list (list (ndarray R))) :
  Forall (fun y => exists r, y = [r] /\ length (data r) = p) ys ->
  length (flat_map (@data R) (concat ys)) = length ys * p.
Proof.
  induction 1 as [| y ys (r & -> & Hr) _ IH]; [reflexivity |].
  simpl. rewrite length_app, Hr, IH. reflexivity.
Qed.

(** X10. When every reward that the environment returns has [p] elements,
    as many as its shape announces, the rewards of a rollout of [n] steps
    have [n] times as many, and as many as their own shape announces:
    [squeeze] loses no reward. *)
Theorem rewards_are_well_formed (self : SelfR) (key : Key)
    (env_params : EnvParams) (n : nat) (agent_params : AgentParams)
    (actor_state : ActorState) (learner_state : LearnerState)
    (trace : CarryR) (rewards : ndarray R) (p : nat) :
  (forall k q s a next_obs next_state reward done info,
     self_step self k q s a
       = inr (next_obs, next_state, reward, done, info) ->
     length (data reward) = p /\
     fold_right Nat.mul 1 (shape reward) = p) ->
  lax_rollout cls self key env_params n agent_params actor_state
    learner_state = inr (trace, rewards) ->
  length (data rewards) = n * p /\
  length (data rewards) = fold_right Nat.mul 1 (shape rewards).
Proof.
  intros Hwf H.
  pose proof H as Hshape. apply lax_rollout_reward_shape in Hshape.
  destruct Hshape as (o0 & s0 & cout & rout & _ & Htrace & Hshape).
  apply actor_learner_step_inr in Htrace.
  destruct Htrace as (? & ? & ? & ? & r0 & ? & ? & ? & ? & ? & Htrace).
  destruct Htrace as (_ & Hs0 & _ & _ & _ & _ & Hr0).
  injection Hr0 as ->. apply Hwf in Hs0. destruct Hs0 as [_ Hprod].
  apply lax_rollout_inr in H.
  destruct H as (obs0 & state0 & cout' & rout' & ys & _ & _ & _ & Hscan
                 & ->).
  assert (Hlen : length (flat_map (@data R) (concat ys)) = n * p).
  { rewrite (rewards_data_length (p := p)).
    - apply scan_length in Hscan. rewrite Hscan, zeros_length. reflexivity.
    - refine (scan_outputs (actor_learner_step cls self) _ _ _ _ Hscan).
      intros c tmp c' y Hstep. apply actor_learner_step_inr in Hstep.
      destruct Hstep as (? & ? & ? & ? & reward & ? & ? & ? & ? & ? & Hs).
      destruct Hs as (_ & Hs & _ & _ & _ & _ & ->).
      exists reward. split; [reflexivity |]. apply Hwf in Hs. apply Hs. }
  rewrite Hshape, prod_squeezed, rewards_data, Hlen.
  cbn [fold_right]. rewrite Hprod. split; reflexivity.
Qed.

(** X11. When every reward that the environment returns has the shape
    [sh], the rewards of an episode have the shape of
    [max_steps_in_episode :: sh] without its axes of length one; for every
    number of steps but one, their length is the number of steps. *)
Theorem episode_rollout_reward_shape (self : SelfR) (key : Key)
    (trace : CarryR) (rewards : ndarray R) (sh : list nat) :
  (forall k p s a next_obs next_state reward done info,
     self_step self k p s a
       = inr (next_obs, next_state, reward, done, info) ->
     shape reward = sh) ->
  episode_rollout cls self key = inr (trace, rewards) ->
  shape rewards =
    filter (fun d => negb (d =? 1)) (self_max_steps_in_episode self :: sh) /\
  (self_max_steps_in_episode self <> 1 ->
   len rewards = Some (self_max_steps_in_episode self)).
Proof.
  intros Hsh H. apply episode_rollout_inr in H.
  destruct H as (ap & acs & ls & _ & _ & _ & H).
  apply lax_rollout_reward_shape in H.
  destruct H as (o0 & s0 & cout & rout & _ & Htrace & H).
  apply actor_learner_step_inr in Htrace.
  destruct Htrace as (? & ? & ? & ? & r0 & ? & ? & ? & ? & ? & Htrace).
  destruct Htrace as (_ & Hs0 & _ & _ & _ & _ & Hr0).
  injection Hr0 as ->. apply Hsh in Hs0. rewrite Hs0 in H.
  split; [exact H |].
  intros Hn. unfold len. rewrite H. cbn [filter].
  destruct (Nat.eqb_spec (self_max_steps_in_episode self) 1) as [E | _].
  - contradiction.
  - reflexivity.
Qed.

(** *** The observation and the state in the carry *)

(** X13. A rollout of [S n] steps: the loop of the first [n] steps leads
    from the carry of the reset, which holds the observation and the state
    of the reset as they are, to a carry [last]; the observation and the
    state of the final carry are the ones that the environment returned at
    the step from [last], squeezed. *)
Theorem final_carry_is_squeezed (self : SelfR) (key : Key)
    (env_params : EnvParams) (n : nat) (agent_params : AgentParams)
    (actor_state : ActorState) (learner_state : LearnerState)
    (trace : CarryR) (rewards : ndarray R) :
  lax_rollout cls self key env_params (S n) agent_params actor_state
    learner_state = inr (trace, rewards) ->
  exists obs0 state0 (last : CarryR) ys action actor_state' next_obs
         next_state reward done info,
    self_reset self key env_params = inr (obs0, state0) /\
    scan (actor_learner_step cls self)
      (mkCarry key obs0 state0 env_params agent_params actor_state
         learner_state) (zeros n) = inr (last, ys) /\
    action_selection cls (act_key (carry_rng last)) (carry_obs last)
      (carry_agent_params last) (carry_actor_state last)
      = inr (action, actor_state') /\
    self_step self (step_key (carry_rng last)) env_params (carry_state last)
      action = inr (next_obs, next_state, reward, done, info) /\
    carry_obs trace = obs_squeeze next_obs /\
    carry_state trace = state_squeeze next_state.
Proof.
  intros H. apply lax_rollout_inr in H.
  destruct H as (obs0 & state0 & cout & rout & ys & Hreset & _ & _ & Hscan
                 & _).
  rewrite zeros_succ in Hscan.
  apply scan_prefix in Hscan.
  destruct Hscan as (last & ys1 & ys2 & H1 & H2 & _).
  apply scan_cons_inr in H2.
  destruct H2 as (c' & y & ys' & Hstep & Hnil & _).
  simpl in Hnil. injection Hnil as <- _.
  assert (Henv : carry_env_params last = env_params).
  { refine (scan_invariant (actor_learner_step cls self)
              (fun c => carry_env_params c = env_params) _ _ _ _ H1);
      [| reflexivity].
    intros c tmp c1 y1 Hc Hs. apply actor_learner_step_env_params in Hs.
    rewrite Hs. exact Hc. }
  apply actor_learner_step_inr in Hstep.
  destruct Hstep as (action & acs & next_obs & next_state & reward & done
                     & info & ? & ? & ? & Hs).
  destruct Hs as (Ha & Hs & _ & _ & _ & -> & _).
  rewrite Henv in Hs.
  exists obs0, state0, last, ys1, action, acs, next_obs, next_state, reward,
    done, info.
  repeat split; assumption.
Qed.

(** X15. [lax_rollout] puts the observation and the state of the reset into
    the first carry as they are, and the step returns them squeezed: when
    the observation or the state of the reset has an axis of length one, the
    step does not return a carry of the type it got, and [lax_rollout]
    raises the [TypeError] of [lax.scan], whatever the number of steps. *)
Theorem rollout_refuses_unsqueezed_reset (self : SelfR) (key : Key)
    (env_params : EnvParams) (n : nat) (agent_params : AgentParams)
    (actor_state : ActorState) (learner_state : LearnerState)
    (obs0 : Obs) (state0 : State) (carry_out : CarryR)
    (y : list (ndarray R)) :
  self_reset self key env_params = inr (obs0, state0) ->
  actor_learner_step cls self
    (mkCarry key obs0 state0 env_params agent_params actor_state
       learner_state) 0 = inr (carry_out, y) ->
  In 1 (obs_shape obs0) \/ In 1 (state_shape state0) ->
  lax_rollout cls self key env_params n agent_params actor_state
    learner_state = inl TypeError.
Proof.
  intros Hreset Hstep Hone.
  unfold lax_rollout, lax_scan. rewrite Hreset. cbn [bind Monad_either].
  rewrite Hstep. cbn [bind Monad_either].
  destruct (avals_eq_dec _ _) as [Htype | _]; [| reflexivity].
  exfalso.
  apply actor_learner_step_inr in Hstep.
  destruct Hstep as (? & ? & next_obs & next_state & ? & ? & ? & ? & ? & ?
                     & Hs).
  destruct Hs as (_ & _ & _ & _ & _ & -> & _).
  unfold carry_type in Htype. simpl in Htype.
  injection Htype as Hobs Hstate _ _ _.
  rewrite obs_squeeze_shape in Hobs. rewrite state_squeeze_shape in Hstate.
  destruct Hone as [Hin | Hin].
  - rewrite Hobs in Hin. apply filter_In in Hin.
    destruct Hin as [_ Hin]. discriminate Hin.
  - rewrite Hstate in Hin. apply filter_In in Hin.
    destruct Hin as [_ Hin]. discriminate Hin.
Qed.

End Further.

(** ** The decorated methods *)

Section Decorated.

Context {Key Obs State EnvParams AgentParams ActorState LearnerState : Type}.
Context {Action Info Experience R : Type}.
Context {jax : Jax Key Obs State EnvParams AgentParams ActorState
                 LearnerState}.

Local Abbreviation SubclassR :=
  (@Subclass Key Obs State AgentParams ActorState LearnerState Action
     Experience R result).
Local Abbreviation SelfR :=
  (@Self Key Obs State EnvParams AgentParams ActorState LearnerState Action
     Info R result).
Local Abbreviation CarryR :=
  (@Carry Key Obs State EnvParams AgentParams ActorState LearnerState).
Local Abbreviation JitCacheR :=
  (@Jitted.JitCache Key Obs State EnvParams AgentParams ActorState
     LearnerState Action Info R result).

Variable cls : SubclassR.

(** *** What the traces keep of the instance *)

Lemma find_trace_In (k : Jitted.CacheKey)
    (traces : list (Jitted.CacheKey * SelfR)) (traced : SelfR) :
  Jitted.find_trace k traces = Some traced ->
  exists k', In (k', traced) traces.
Proof.
  induction traces as [| [k0 t0] traces IH]; simpl; intros H.
  - discriminate H.
  - destruct (Jitted.cache_key_eq_dec k k0) as [_ | _].
    + injection H as ->. exists k0. left. reflexivity.
    + destruct (IH H) as (k' & Hin). exists k'. right. exact Hin.
Qed.

Lemma same_environment_refl (self : SelfR) : same_environment self self.
Proof. split; reflexivity. Qed.

Lemma same_environment_trans (self1 self2 self3 : SelfR) :
  same_environment self1 self2 -> same_environment self2 self3 ->
  same_environment self1 self3.
Proof.
  intros [Hr12 Hs12] [Hr23 Hs23]. split; intros.
  - rewrite Hr12. apply Hr23.
  - rewrite Hs12. apply Hs23.
Qed.

(** [init_collector] leaves the environment of the instance as it is,
    whether it returns or raises. *)
Lemma init_collector_same_environment (self : SelfR)
    (agent_params : AgentParams) :
  same_environment self (init_collector_instance cls self agent_params).
Proof.
  unfold init_collector_instance.
  destruct (init_learner_state cls agent_params) as [e | ls].
  - split; reflexivity.
  - destruct (init_actor_state cls tt) as [e | acs]; split; reflexivity.
Qed.

(** What [lax_rollout] computes, it computes from the environment of the
    instance, the hooks and its arguments. *)
Lemma lax_rollout_same_environment (self1 self2 : SelfR) :
  same_environment self1 self2 ->
  forall key env_params n agent_params actor_state learner_state,
    lax_rollout cls self1 key env_params n agent_params actor_state
      learner_state =
    lax_rollout cls self2 key env_params n agent_params actor_state
      learner_state.
Proof.
  intros [Hreset Hstep] key env_params n ap acs ls.
  assert (Hbody : forall (c : CarryR) (x : nat),
             actor_learner_step cls self1 c x
               = actor_learner_step cls self2 c x).
  { intros c x. unfold actor_learner_step, perform_transition.
    destruct (split3 (carry_rng c)) as [[rng key_act] key_step].
    destruct (action_selection cls key_act (carry_obs c)
                (carry_agent_params c) (carry_actor_state c))
      as [e | [action acs']]; [reflexivity |].
    cbn [bind Monad_either]. rewrite Hstep. reflexivity. }
  unfold lax_rollout, lax_scan. rewrite Hreset.
  destruct (self_reset self2 key env_params) as [e | [obs0 state0]];
    [reflexivity |].
  cbn [bind Monad_either]. rewrite Hbody.
  erewrite scan_ext; [reflexivity | exact Hbody].
Qed.

Lemma traced_on_no_trace (self : SelfR) : traced_on self Jitted.no_trace.
Proof. constructor. Qed.

(** The traces made on an instance are traces made on the instance that
    [init_collector] leaves. *)
Lemma traced_on_same_environment (self self' : SelfR) (cache : JitCacheR) :
  same_environment self self' -> traced_on self cache ->
  traced_on self' cache.
Proof.
  intros Henv Hcache. unfold traced_on in *.
  apply Forall_forall. intros entry Hin.
  rewrite Forall_forall in Hcache.
  exact (same_environment_trans (Hcache entry Hin) Henv).
Qed.

(** The decorated [lax_rollout] returns or raises what [lax_rollout] does on
    the instance as it is, whatever was traced before on the instance. *)
Lemma jitted_lax_rollout (self : SelfR) (cache : JitCacheR) (key : Key)
    (env_params : EnvParams) (n : nat) (agent_params : AgentParams)
    (actor_state : ActorState) (learner_state : LearnerState) :
  traced_on self cache ->
  exists cache',
    traced_on self cache' /\
    Jitted.vmap_traces cache' = Jitted.vmap_traces cache /\
    Jitted.lax_rollout cls self cache key env_params n agent_params
      actor_state learner_state =
      match lax_rollout cls self key env_params n agent_params actor_state
              learner_state with
      | inl e => inl e
      | inr out => inr (out, cache')
      end.
Proof.
  intros Hcache. unfold Jitted.lax_rollout.
  destruct (Jitted.find_trace _ (Jitted.lax_traces cache))
    as [traced |] eqn:Hfind.
  - exists cache. split; [exact Hcache |]. split; [reflexivity |].
    apply find_trace_In in Hfind. destruct Hfind as (k' & Hin).
    unfold traced_on in Hcache. rewrite Forall_forall in Hcache.
    rewrite (lax_rollout_same_environment (Hcache _ Hin)).
    destruct (lax_rollout cls self key env_params n agent_params
                actor_state learner_state) as [e | out]; reflexivity.
  - eexists. split; [| split; [| reflexivity]].
    + unfold traced_on. simpl. constructor; [| exact Hcache].
      apply same_environment_refl.
    + reflexivity.
Qed.

(** The same of the decorated [episode_rollout]. *)
Lemma jitted_episode_rollout (self : SelfR) (cache : JitCacheR) (key : Key) :
  traced_on self cache ->
  exists cache',
    traced_on self cache' /\
    Jitted.vmap_traces cache' = Jitted.vmap_traces cache /\
    Jitted.episode_rollout cls self cache key =
      match episode_rollout cls self key with
      | inl e => inl e
      | inr out => inr (out, cache')
      end.
Proof.
  intros Hcache. unfold Jitted.episode_rollout, episode_rollout.
  destruct (self_agent_params self) as [ap |];
    [| exists cache; repeat split; assumption].
  destruct (self_actor_state self) as [acs |];
    [| exists cache; repeat split; assumption].
  destruct (self_learner_state self) as [ls |];
    [| exists cache; repeat split; assumption].
  cbn [getattr bind ret Monad_either].
  destruct (jitted_lax_rollout key (self_env_params self)
              (self_max_steps_in_episode self) ap acs ls Hcache)
    as (cache' & Hcache' & Hvmap & ->).
  exists cache'. split; [exact Hcache' |]. split; [exact Hvmap |].
  destruct (lax_rollout cls self key (self_env_params self)
              (self_max_steps_in_episode self) ap acs ls) as [e | out].
  - destruct e; reflexivity.
  - reflexivity.
Qed.

(** C4. Two calls of the decorated [episode_rollout] on the same instance,
    with the same key: whatever was traced on the instance before each of
    them, with whatever collector (other rollouts, of episodes and of
    batches, and other calls of [init_collector]), the two calls return the
    same final carry and the same rewards, or raise the same exception. *)
Theorem episode_rollout_deterministic (self : SelfR)
    (cache1 cache2 : JitCacheR) (key : Key) :
  traced_on self cache1 ->
  traced_on self cache2 ->
  match Jitted.episode_rollout cls self cache1 key,
        Jitted.episode_rollout cls self cache2 key with
  | inr (trace1, rewards1, _), inr (trace2, rewards2, _) =>
      trace1 = trace2 /\ rewards1 = rewards2
  | inl e1, inl e2 => e1 = e2
  | _, _ => False
  end.
Proof.
  intros H1 H2.
  destruct (jitted_episode_rollout key H1) as (c1 & _ & _ & ->).
  destruct (jitted_episode_rollout key H2) as (c2 & _ & _ & ->).
  destruct (episode_rollout cls self key) as [e | [trace rewards]].
  - reflexivity.
  - split; reflexivity.
Qed.

(** *** The batch *)

Lemma vmap_rollout_inr (traced : SelfR) (keys : list Key)
    (env_params : EnvParams) (n : nat) (agent_params : AgentParams)
    (actor_state : ActorState) (learner_state : LearnerState)
    (traces : list CarryR) (rewards : list (ndarray R)) :
  vmap_rollout cls traced keys env_params n agent_params actor_state
    learner_state = inr (traces, rewards) ->
  exists ap acs ls,
    self_agent_params traced = Some ap /\
    self_actor_state traced = Some acs /\
    self_learner_state traced = Some ls /\
    vmap (fun key =>
            lax_rollout cls traced key (self_env_params traced)
              (self_max_steps_in_episode traced) ap acs ls) keys
      = inr (traces, rewards).
Proof.
  unfold vmap_rollout, getattr. intros H.
  destruct (self_agent_params traced) as [ap |]; [| discriminate H].
  destruct (self_actor_state traced) as [acs |]; [| discriminate H].
  destruct (self_learner_state traced) as [ls |]; [| discriminate H].
  exists ap, acs, ls. repeat split.
  cbn [bind ret Monad_either] in H.
  destruct (vmap _ keys) as [e | [ts rs]]; [discriminate H |].
  simpl in H. exact H.
Qed.

(** The decorated [vmap_rollout] is [vmap_rollout] on the instance as it was
    when the function was traced for the static argument and the types of
    the arguments of the call: the instance as it is, when there is no such
    trace. *)
Lemma jitted_vmap_rollout (self : SelfR) (cache : JitCacheR)
    (keys : list Key) (env_params : EnvParams) (n : nat)
    (agent_params : AgentParams) (actor_state : ActorState)
    (learner_state : LearnerState) :
  let k := ([length keys; n],
            Jitted.arguments_type env_params agent_params actor_state
              learner_state) in
  Jitted.vmap_rollout cls self cache keys env_params n agent_params
    actor_state learner_state =
    match Jitted.find_trace k (Jitted.vmap_traces cache) with
    | Some traced =>
        match vmap_rollout cls traced keys env_params n agent_params
                actor_state learner_state with
        | inl e => inl e
        | inr out => inr (out, cache)
        end
    | None =>
        match vmap_rollout cls self keys env_params n agent_params
                actor_state learner_state with
        | inl e => inl e
        | inr out =>
            inr (out,
                 Jitted.mkJitCache (Jitted.lax_traces cache)
                   ((k, self) :: Jitted.vmap_traces cache))
        end
    end.
Proof.
  intros k. unfold Jitted.vmap_rollout. fold k.
  destruct (Jitted.find_trace k (Jitted.vmap_traces cache)) as [traced |].
  - destruct (vmap_rollout cls traced keys env_params n agent_params
                actor_state learner_state) as [e | out]; reflexivity.
  - destruct (vmap_rollout cls self keys env_params n agent_params
                actor_state learner_state) as [e | out]; reflexivity.
Qed.


(** A batch leaves the traces of [lax_rollout] as they are. *)
Lemma jitted_batch_rollout_traces (self : SelfR) (cache cache' : JitCacheR)
    (keys : list Key) (traces : list CarryR) (rewards : list (ndarray R)) :
  Jitted.batch_rollout cls self cache keys = inr (traces, rewards, cache') ->
  Jitted.lax_traces cache' = Jitted.lax_traces cache.
Proof.
  unfold Jitted.batch_rollout, getattr. intros H. apply catch_inr in H.
  destruct (self_agent_params self) as [ap |]; [| discriminate H].
  destruct (self_actor_state self) as [acs |]; [| discriminate H].
  destruct (self_learner_state self) as [ls |]; [| discriminate H].
  cbn [bind ret Monad_either] in H.
  rewrite jitted_vmap_rollout in H.
  destruct (Jitted.find_trace _ (Jitted.vmap_traces cache)) as [traced |].
  - destruct (vmap_rollout cls traced keys (self_env_params self)
                (self_max_steps_in_episode self) ap acs ls)
      as [e | out]; [discriminate H |].
    injection H as _ <-. reflexivity.
  - destruct (vmap_rollout cls self keys (self_env_params self)
                (self_max_steps_in_episode self) ap acs ls)
      as [e | out]; [discriminate H |].
    injection H as _ <-. reflexivity.
Qed.

(** The rows of [vmap_rollout] are the episodes of the instance it reads. *)
Lemma vmap_rollout_rows (traced : SelfR) (keys : list Key)
    (env_params : EnvParams) (n : nat) (agent_params : AgentParams)
    (actor_state : ActorState) (learner_state : LearnerState)
    (traces : list CarryR) (rewards : list (ndarray R)) :
  vmap_rollout cls traced keys env_params n agent_params actor_state
    learner_state = inr (traces, rewards) ->
  length traces = length keys /\ length rewards = length keys /\
  forall i key, nth_error keys i = Some key ->
    exists trace reward,
      nth_error traces i = Some trace /\
      nth_error rewards i = Some reward /\
      episode_rollout cls traced key = inr (trace, reward).
Proof.
  intros Hbody. apply vmap_rollout_inr in Hbody.
  destruct Hbody as (ap & acs & ls & Hap & Has & Hls & Hvmap).
  apply vmap_rows in Hvmap. destruct Hvmap as (Ht & Hr & Hrows).
  split; [exact Ht |]. split; [exact Hr |].
  intros i key Hkey.
  destruct (Hrows i key Hkey) as (trace & reward & Hti & Hri & Hroll).
  exists trace, reward. split; [exact Hti |]. split; [exact Hri |].
  erewrite episode_rollout_initialised;
    [| exact Hap | exact Has | exact Hls].
  apply catch_inr. exact Hroll.
Qed.

(** C3, on the code.  Row [i] of what the decorated [batch_rollout] returns
    for a batch of keys is what [episode_rollout] returns for key [i] on the
    instance as it was when [vmap_rollout] was traced for the episode
    length, the number of keys and the types of the attributes of the call.
    When there is no such trace, or when the instance is as it was at every
    trace of [vmap_rollout], this is the instance as it is, and the rows are
    the episodes of the keys, each run alone; when there is one and
    [init_collector] was called since, the rows are the episodes of the
    collector of before. *)
Theorem batch_rollout_rows (self : SelfR) (cache cache' : JitCacheR)
    (keys : list Key) (traces : list CarryR) (rewards : list (ndarray R)) :
  Jitted.batch_rollout cls self cache keys = inr (traces, rewards, cache') ->
  exists agent_params actor_state learner_state traced,
    self_agent_params self = Some agent_params /\
    self_actor_state self = Some actor_state /\
    self_learner_state self = Some learner_state /\
    traced =
      match Jitted.find_trace
              ([length keys; self_max_steps_in_episode self],
               Jitted.arguments_type (self_env_params self) agent_params
                 actor_state learner_state)
              (Jitted.vmap_traces cache) with
      | Some traced => traced
      | None => self
      end /\
    ((forall k t, In (k, t) (Jitted.vmap_traces cache) -> t = self) ->
     traced = self) /\
    length traces = length keys /\ length rewards = length keys /\
    forall i key, nth_error keys i = Some key ->
      exists trace reward,
        nth_error traces i = Some trace /\
        nth_error rewards i = Some reward /\
        episode_rollout cls traced key = inr (trace, reward).
Proof.
  unfold Jitted.batch_rollout, getattr. intros H. apply catch_inr in H.
  destruct (self_agent_params self) as [ap |]; [| discriminate H].
  destruct (self_actor_state self) as [acs |]; [| discriminate H].
  destruct (self_learner_state self) as [ls |]; [| discriminate H].
  cbn [bind ret Monad_either] in H.
  rewrite jitted_vmap_rollout in H.
  exists ap, acs, ls.
  destruct (Jitted.find_trace _ (Jitted.vmap_traces cache))
    as [traced |] eqn:Hfind.
  - exists traced. do 4 (split; [reflexivity |]).
    split.
    { intros Hall. apply find_trace_In in Hfind.
      destruct Hfind as (k' & Hin). exact (Hall _ _ Hin). }
    destruct (vmap_rollout cls traced keys (self_env_params self)
                (self_max_steps_in_episode self) ap acs ls)
      as [e | [ts rs]] eqn:Hbody; [discriminate H |].
    injection H as <- <- _.
    exact (vmap_rollout_rows _ _ _ _ _ _ _ Hbody).
  - exists self. do 4 (split; [reflexivity |]).
    split; [reflexivity |].
    destruct (vmap_rollout cls self keys (self_env_params self)
                (self_max_steps_in_episode self) ap acs ls)
      as [e | [ts rs]] eqn:Hbody; [discriminate H |].
    injection H as <- <- _.
    exact (vmap_rollout_rows _ _ _ _ _ _ _ Hbody).
Qed.

End Decorated.

(** ** The methods on the small environments *)

Module Runs.

Import Demo Demo3.

(** An episode of five steps of the learning agent. *)
Example episode_of_five_steps :
  episode_rollout Learning (initialised 5) 0 =
    inr (mkCarry 121 6 5 (env_params 5) 12 5 5,
         mk_ndarray [5] [1; 1; 1; 1; 1]).
Proof. reflexivity. Qed.

(** An episode of no step: the carry is the initial one. *)
Example episode_of_no_step :
  episode_rollout Learning (initialised 0) 0 =
    inr (mkCarry 0 0 0 (env_params 0) 7 0 0, mk_ndarray [0] []).
Proof. reflexivity. Qed.

(** [__init__] and [init_collector] build the two instances. *)
Example created_by_init (n : nat) :
  __init__ step reset (env_params n) = inr (created n).
Proof. reflexivity. Qed.

Example initialised_by_init_collector (n : nat) :
  init_collector Learning (created n) 7 = inr (initialised n).
Proof. reflexivity. Qed.

Example reinitialised_by_init_collector (n : nat) :
  init_collector Learning (initialised n) 100 = inr (reinitialised n).
Proof. reflexivity. Qed.

(** The hooks of the base class are not implemented. *)
Example base_class_init_collector (n : nat) :
  init_collector (BaseRollouts : SubclassD) (created n) 7
    = inl NotImplementedError.
Proof. reflexivity. Qed.

Example base_class_episode :
  episode_rollout (BaseRollouts : SubclassD) (initialised 2) 0
    = inl NotImplementedError.
Proof. reflexivity. Qed.

(** In one step of the learning agent every field of the carry but
    [env_params] changes. *)
Example every_other_field_changes :
  let c := mkCarry 0 0 0 (env_params 5) 7 0 0 in
  exists c' y,
    actor_learner_step Learning (initialised 5) c 0 = inr (c', y) /\
    carry_rng c' <> carry_rng c /\ carry_obs c' <> carry_obs c /\
    carry_state c' <> carry_state c /\
    carry_agent_params c' <> carry_agent_params c /\
    carry_actor_state c' <> carry_actor_state c /\
    carry_learner_state c' <> carry_learner_state c /\
    carry_env_params c' = carry_env_params c.
Proof.
  eexists _, _. split; [reflexivity |]. simpl.
  repeat split; discriminate.
Qed.

(** An episode in the environment of arrays: the observations of the step
    have the shape (1, 2) and are carried with the shape (2,) of the
    observation of the reset. *)
Example episode_of_arrays :
  episode_rollout Acting (flat 2) 0 =
    inr (mkCarry 4 (mk_ndarray [2] [8; 8]) (mk_ndarray [] [2])
           (env_params 2) 9 2 2,
         mk_ndarray [2] [1; 1]).
Proof. reflexivity. Qed.

(** The first [episode_rollout] and the first [batch_rollout] of an instance
    leave their traces in the cache. *)
Example first_episode_rollout :
  Jitted.episode_rollout Learning (initialised 2) Jitted.no_trace 4 =
    inr (mkCarry 40 3 2 (env_params 2) 9 2 2, mk_ndarray [2] [1; 1],
         cache_after_episode 2).
Proof. reflexivity. Qed.

Example first_batch_rollout :
  Jitted.batch_rollout Learning (initialised 2) Jitted.no_trace [0; 4] =
    inr ([mkCarry 4 3 2 (env_params 2) 9 2 2;
          mkCarry 40 3 2 (env_params 2) 9 2 2],
         [mk_ndarray [2] [1; 1]; mk_ndarray [2] [1; 1]],
         cache_after_batch 2).
Proof. reflexivity. Qed.

End Runs.

(** ** Instances of the theorems *)

Module Witness.

Import Demo Demo3.


Lemma one_step_episode_reward_len_run :
  (exists agent_params actor_state learner_state obs0 state0 reward,
     self_agent_params (initialised 1) = Some agent_params /\
     self_actor_state (initialised 1) = Some actor_state /\
     self_learner_state (initialised 1) = Some learner_state /\
     reset 0 (env_params 1) = inr (obs0, state0) /\
     actor_learner_step Learning (initialised 1)
       (mkCarry 0 obs0 state0 (env_params 1) agent_params actor_state
          learner_state) 0
       = inr (mkCarry 1 2 1 (env_params 1) 8 1 1, [reward]) /\
     shape (mk_ndarray [] [1])
       = filter (fun d => negb (d =? 1)) (shape reward) /\
     data (mk_ndarray [] [1]) = data reward) /\
  len (mk_ndarray [] [1]) <> Some 1.
Proof.
  exact (one_step_episode_reward_len Learning (initialised 1) 0
           (trace := mkCarry 1 2 1 (env_params 1) 8 1 1)
           (rewards := mk_ndarray [] [1]) eq_refl eq_refl).
Defined.

(** The failing input of C3.  The instance is initialised with the
    parameters 7, [batch_rollout] is called on two keys, [init_collector] is
    called again with the parameters 100, and [batch_rollout] is called on
    the same keys: its rows are the episodes of the parameters 7, not the
    episodes that [episode_rollout] now returns. *)
Lemma batch_rollout_rows_run :
  Jitted.batch_rollout Learning (reinitialised 2) (cache_after_batch 2)
    [0; 4] =
    inr ([mkCarry 4 3 2 (env_params 2) 9 2 2;
          mkCarry 40 3 2 (env_params 2) 9 2 2],
         [mk_ndarray [2] [1; 1]; mk_ndarray [2] [1; 1]],
         cache_after_batch 2) /\
  episode_rollout Learning (initialised 2) 4 =
    inr (mkCarry 40 3 2 (env_params 2) 9 2 2, mk_ndarray [2] [1; 1]) /\
  episode_rollout Learning (reinitialised 2) 4 =
    inr (mkCarry 40 3 2 (env_params 2) 102 2 2, mk_ndarray [2] [1; 1]) /\
  episode_rollout Learning (reinitialised 2) 4 <>
    inr (mkCarry 40 3 2 (env_params 2) 9 2 2, mk_ndarray [2] [1; 1]).
Proof.
  pose proof (batch_rollout_rows Learning (reinitialised 2)
                (cache_after_batch 2) [0; 4]
                (traces := [mkCarry 4 3 2 (env_params 2) 9 2 2;
                            mkCarry 40 3 2 (env_params 2) 9 2 2])
                (rewards := [mk_ndarray [2] [1; 1]; mk_ndarray [2] [1; 1]])
                eq_refl) as H.
  destruct H as (ap & acs & ls & traced & Hap & Has & Hls & Htraced & _ & _
                 & _ & Hrows).
  injection Hap as <-. injection Has as <-. injection Hls as <-.
  simpl in Htraced. subst traced.
  destruct (Hrows 1 4 eq_refl) as (trace & reward & Ht & Hr & Hep).
  injection Ht as <-. injection Hr as <-.
  split; [reflexivity |]. split; [exact Hep |]. split; [reflexivity |].
  intros H. discriminate H.
Defined.

Lemma episode_rollout_deterministic_run :
  traced_on (reinitialised 2) (cache_after_episode 2) /\
  match Jitted.episode_rollout Learning (reinitialised 2) Jitted.no_trace 4,
        Jitted.episode_rollout Learning (reinitialised 2)
          (cache_after_episode 2) 4 with
  | inr (trace1, rewards1, _), inr (trace2, rewards2, _) =>
      trace1 = trace2 /\ rewards1 = rewards2
  | inl e1, inl e2 => e1 = e2
  | _, _ => False
  end.
Proof.
  assert (H : traced_on (reinitialised 2) (cache_after_episode 2)).
  { constructor; [| constructor]. split; reflexivity. }
  split; [exact H |].
  exact (episode_rollout_deterministic Learning
           (self := reinitialised 2) (cache1 := Jitted.no_trace)
           (cache2 := cache_after_episode 2) 4
           (traced_on_no_trace (reinitialised 2)) H).
Defined.

Lemma rollout_before_init_collector_run :
  exists original,
    getattr Learning "agent_params" (self_agent_params (created 3))
      = inl (AttributeError original) /\
    original = no_attribute "Learning" "agent_params" /\
    episode_rollout Learning (created 3) 0
      = inl (AttributeError (original ++ episode_hint)) /\
    batch_rollout Learning (created 3) [0; 4]
      = inl (AttributeError (original ++ batch_hint)).
Proof.
  exact (rollout_before_init_collector Learning step reset (env_params 3)
           (self := created 3) 0 [0; 4] eq_refl).
Defined.

Lemma identity_learner_keeps_agent_params_run :
  exists agent_params actor_state learner_state obs0 state0,
    self_agent_params (initialised 2) = Some agent_params /\
    self_actor_state (initialised 2) = Some actor_state /\
    self_learner_state (initialised 2) = Some learner_state /\
    reset 0 (env_params 2) = inr (obs0, state0) /\
    7 = agent_params /\
    forall k, k <= 2 ->
      exists (carry : CarryD) ys,
        scan (actor_learner_step Frozen (initialised 2))
          (mkCarry 0 obs0 state0 (env_params 2) agent_params actor_state
             learner_state) (zeros k) = inr (carry, ys) /\
        carry_agent_params carry = agent_params.
Proof.
  apply (identity_learner_keeps_agent_params Frozen (initialised 2) 0
           (trace := mkCarry 4 3 2 (env_params 2) 7 2 0)
           (rewards := mk_ndarray [2] [1; 1])).
  - intros p l. reflexivity.
  - reflexivity.
Defined.

Lemma env_params_invariant_run :
  carry_env_params (mkCarry 1 2 1 (env_params 5) 8 1 1) = env_params 5 /\
  carry_env_params (mkCarry 4 3 2 (env_params 2) 9 2 2) = env_params 2.
Proof.
  destruct (env_params_invariant Learning (initialised 5)) as [Hstep _].
  destruct (env_params_invariant Learning (initialised 2)) as [_ Hroll].
  split.
  - exact (Hstep (mkCarry 0 0 0 (env_params 5) 7 0 0) _ 0 _ eq_refl).
  - exact (Hroll 0 (env_params 2) 2 7 0 0 _ _ eq_refl).
Defined.

(** The failing inputs of C8.  The collector is initialised; the action
    selection raises an [AttributeError] of its own, or an exception of a
    subclass of [AttributeError]: the caller gets a plain [AttributeError]
    with the hint about the collector.  An exception of another class
    reaches the caller as it is. *)
Lemma attribute_errors_annotated_others_propagate_run :
  episode_rollout Broken (initialised 2) 0 =
    inl (AttributeError
           ("'NoneType' object has no attribute 'apply'" ++ episode_hint)) /\
  episode_rollout Frozenclass (initialised 2) 0 =
    inl (AttributeError
           ("cannot assign to field 'count'" ++ episode_hint)) /\
  batch_rollout Broken (initialised 2) [0; 4] =
    inl (AttributeError
           ("'NoneType' object has no attribute 'apply'" ++ batch_hint)) /\
  episode_rollout (BaseRollouts : SubclassD) (initialised 2) 0
    = inl NotImplementedError.
Proof.
  split; [| split; [| split]].
  - exact (proj1 (attribute_errors_annotated_others_propagate Broken
                    (initialised 2) 0 [0]
                    (AttributeError
                       "'NoneType' object has no attribute 'apply'")
                    eq_refl eq_refl eq_refl) eq_refl).
  - exact (proj1 (attribute_errors_annotated_others_propagate Frozenclass
                    (initialised 2) 0 [0]
                    (AttributeErrorSubclass "FrozenInstanceError"
                       "cannot assign to field 'count'")
                    eq_refl eq_refl eq_refl) eq_refl).
  - exact (proj2 (attribute_errors_annotated_others_propagate Broken
                    (initialised 2) 0 [0; 4]
                    (AttributeError
                       "'NoneType' object has no attribute 'apply'")
                    eq_refl eq_refl eq_refl) eq_refl).
  - exact (proj1 (attribute_errors_annotated_others_propagate
                    (BaseRollouts : SubclassD)
                    (initialised 2) 0 [0] NotImplementedError
                    eq_refl eq_refl eq_refl) eq_refl).
Defined.

(** The exception that the hook raised and the exception that the caller
    gets. *)
Lemma hook_attribute_error_is_modified :
  lax_rollout Broken (initialised 2) 0 (env_params 2) 2 7 0 0 =
    inl (AttributeError "'NoneType' object has no attribute 'apply'") /\
  episode_rollout Broken (initialised 2) 0 <>
    inl (AttributeError "'NoneType' object has no attribute 'apply'") /\
  episode_rollout Broken (initialised 2) 0 =
    inl (AttributeError
           "'NoneType' object has no attribute 'apply'. You need to initialize the agent's parameters and the states of the actor and learner.").
Proof.
  split; [reflexivity |]. split; [| reflexivity].
  intros H. discriminate H.
Qed.



Lemma root_key_used_twice_run :
  exists obs0 state0 (carry1 : CarryD) y1 action actor_state1 step_out,
    reset 5 (env_params 2) = inr (obs0, state0) /\
    actor_learner_step Learning (initialised 2)
      (mkCarry 5 obs0 state0 (env_params 2) 7 0 0) 0 = inr (carry1, y1) /\
    (16, 17, 18) = (carry_rng carry1, 17, 18) /\
    action_selection Learning 17 obs0 7 0 = inr (action, actor_state1) /\
    step 18 (env_params 2) state0 action = inr step_out /\
    49 = Nat.iter 1 next_key (carry_rng carry1).
Proof.
  exact (root_key_used_twice Learning (initialised 2) 5 (env_params 2)
           1 7 0 0 (trace := mkCarry 49 3 2 (env_params 2) 9 2 2)
           (rewards := mk_ndarray [2] [1; 1]) eq_refl).
Defined.

End Witness.

(** ** Instances of the further theorems *)

Module WitnessFurther.

Import Demo Demo2 Demo3.

Lemma collector_life_cycle_run :
  exists n learner_state actor_state,
    lookup (env_params 3) "max_steps_in_episode" = Some n /\
    init_learner_state Learning 7 = inr learner_state /\
    init_actor_state Learning tt = inr actor_state /\
    initialised 3 = mkSelf step reset (env_params 3) n (Some 7)
                      (Some learner_state) (Some actor_state) /\
    init_collector_instance Learning (created 3) 7 = initialised 3 /\
    forall key,
      episode_rollout Learning (initialised 3) key =
        catch
          (lax_rollout Learning (initialised 3) key (env_params 3) n 7
             actor_state learner_state)
          (except_AttributeError episode_hint).
Proof.
  exact (collector_life_cycle Learning step reset (env_params 3)
           (self0 := created 3) (self := initialised 3) 7 eq_refl eq_refl).
Defined.

Lemma base_class_is_not_implemented_run :
  episode_rollout (BaseRollouts : SubclassD) (initialised 2) 0
    = inl NotImplementedError.
Proof.
  refine (proj2 (base_class_is_not_implemented (Experience := nat)
                   (initialised 2) 0 7 0 0 0 0) _ _ _ _ _).
  - reflexivity.
  - reflexivity.
  - reflexivity.
  - reflexivity.
  - discriminate.
Defined.

Lemma failed_init_collector_is_reported_run :
  self_agent_params (init_collector_instance NoLearner (created 2) 7)
    = Some 7 /\
  episode_rollout NoLearner (init_collector_instance NoLearner (created 2) 7)
    0 = inl (AttributeError
               (no_attribute "NoLearner" "actor_state" ++ episode_hint)) /\
  batch_rollout NoLearner (init_collector_instance NoLearner (created 2) 7)
    [0; 4] = inl (AttributeError
                    (no_attribute "NoLearner" "actor_state" ++ batch_hint)).
Proof.
  exact (failed_init_collector_is_reported NoLearner step reset
           (env_params 2) (self0 := created 2) 7
           (e := OtherError "ValueError" "no learner") 0 [0; 4]
           eq_refl eq_refl).
Defined.

(** An episode of no step of an agent whose learner cannot be traced. *)
Lemma rollout_raises_what_the_trace_raises_run :
  lax_rollout Untraceable (initialised 0) 0 (env_params 0) 0 7 0 0
    = inl (OtherError "TracerBoolConversionError"
             "Attempted boolean conversion of traced array").
Proof.
  exact (rollout_raises_what_the_trace_raises Untraceable (initialised 0) 0
           (env_params 0) 0 7 0 0 (obs0 := 0) (state0 := 0)
           eq_refl eq_refl).
Defined.

Lemma rollout_one_more_step_run :
  exists reward rewards',
    [scalar 1] = [reward] /\
    lax_rollout Learning (initialised 5) 0 (env_params 5) 3 7 0 0
      = inr (mkCarry 13 4 3 (env_params 5) 10 3 3, rewards') /\
    data rewards' = [1; 1] ++ data reward.
Proof.
  exact (rollout_one_more_step Learning (initialised 5) 0 (env_params 5) 2
           7 0 0 (trace := mkCarry 4 3 2 (env_params 5) 9 2 2)
           (rewards := mk_ndarray [2] [1; 1]) eq_refl eq_refl).
Defined.

Lemma rollout_prefix_run :
  exists (trace_k : CarryD) rewards_k ys rest,
    lax_rollout Learning (initialised 5) 0 (env_params 5) 1 7 0 0
      = inr (trace_k, rewards_k) /\
    scan (actor_learner_step Learning (initialised 5)) trace_k (zeros 2)
      = inr (mkCarry 13 4 3 (env_params 5) 10 3 3, ys) /\
    rest = flat_map (@data nat) (concat ys) /\
    [1; 1; 1] = data rewards_k ++ rest.
Proof.
  refine (rollout_prefix Learning (initialised 5) 0 (env_params 5)
            (n := 3) (k := 1) 7 0 0
            (rewards := mk_ndarray [3] [1; 1; 1]) _ eq_refl).
  lia.
Defined.

Lemma learner_is_updated_once_per_step_run :
  (10, 3) = Nat.iter 3 (fun pl => (S (fst pl), S (snd pl))) (7, 0).
Proof.
  refine (learner_is_updated_once_per_step Learning (initialised 5) 0
            (env_params 5) 3 7 0 0
            (trace := mkCarry 13 4 3 (env_params 5) 10 3 3)
            (rewards := mk_ndarray [3] [1; 1; 1])
            (fun pl => (S (fst pl), S (snd pl))) _ eq_refl).
  intros p l. reflexivity.
Defined.

Lemma lax_rollout_reads_step_and_reset_run :
  lax_rollout Learning (created 2) 0 (env_params 5) 3 7 0 0 =
  lax_rollout Learning (initialised 5) 0 (env_params 5) 3 7 0 0.
Proof.
  apply lax_rollout_reads_step_and_reset.
  - intros k p. reflexivity.
  - intros k p s a. reflexivity.
Defined.

Lemma rewards_are_well_formed_run :
  length [0; 7; 1; 10; 2; 12] = 3 * 2 /\
  length [0; 7; 1; 10; 2; 12] = fold_right Nat.mul 1 [3; 2].
Proof.
  refine (rewards_are_well_formed Learning
            (initialised_pairs 3) 0 (env_params 3) 3 7 0 0
            (trace := mkCarry 13 4 3 (env_params 3) 10 3 3)
            (rewards := mk_ndarray [3; 2] [0; 7; 1; 10; 2; 12])
            (p := 2) _ eq_refl).
  intros k q s a next_obs next_state reward done info H.
  injection H as _ _ <- _ _. split; reflexivity.
Defined.

Lemma episode_rollout_reward_shape_run :
  shape (mk_ndarray [3; 2] [0; 7; 1; 10; 2; 12]) = [3; 2] /\
  (3 <> 1 -> len (mk_ndarray [3; 2] [0; 7; 1; 10; 2; 12]) = Some 3).
Proof.
  refine (episode_rollout_reward_shape Learning (initialised_pairs 3) 0
            (trace := mkCarry 13 4 3 (env_params 3) 10 3 3)
            (rewards := mk_ndarray [3; 2] [0; 7; 1; 10; 2; 12])
            (sh := [2]) _ eq_refl).
  intros k p s a next_obs next_state reward done info H.
  injection H as _ _ <- _ _. reflexivity.
Defined.

(** Two steps in the environment of arrays: the observation of the last
    step has the shape (1, 2), the one of the final carry the shape (2,). *)
Lemma final_carry_is_squeezed_run :
  exists obs0 state0 (last : CarryA) ys action actor_state' next_obs
         next_state reward done info,
    reset_flat 0 (env_params 2) = inr (obs0, state0) /\
    scan (actor_learner_step Acting (flat 2))
      (mkCarry 0 obs0 state0 (env_params 2) 7 0 0) (zeros 1)
      = inr (last, ys) /\
    action_selection Acting (act_key (carry_rng last)) (carry_obs last)
      (carry_agent_params last) (carry_actor_state last)
      = inr (action, actor_state') /\
    step_rows (step_key (carry_rng last)) (env_params 2) (carry_state last)
      action = inr (next_obs, next_state, reward, done, info) /\
    mk_ndarray [2] [8; 8] = squeeze next_obs /\
    mk_ndarray [] [2] = squeeze next_state.
Proof.
  exact (final_carry_is_squeezed Acting (flat 2) 0 (env_params 2) 1 7 0 0
           (trace := mkCarry 4 (mk_ndarray [2] [8; 8]) (mk_ndarray [] [2])
                       (env_params 2) 9 2 2)
           (rewards := mk_ndarray [2] [1; 1]) eq_refl).
Defined.

(** A reset whose observation has the shape (1, 2) of the observations of
    the step. *)
Lemma rollout_refuses_unsqueezed_reset_run :
  lax_rollout Acting (rows 2) 0 (env_params 2) 2 7 0 0 = inl TypeError.
Proof.
  refine (rollout_refuses_unsqueezed_reset Acting (rows 2) 0 (env_params 2)
            2 7 0 0 (obs0 := mk_ndarray [1; 2] [0; 0]) (state0 := scalar 0)
            (carry_out := mkCarry 1 (mk_ndarray [2] [7; 7])
                            (mk_ndarray [] [1]) (env_params 2) 8 1 1)
            (y := [scalar 1]) eq_refl eq_refl _).
  left. simpl. left. reflexivity.
Defined.

End WitnessFurther.
